(** * reWeFDE: kernel density estimation and information-leakage estimation

    A shallow embedding of [src/info_leakage/kde_wrapper.py] (class [AKDE])
    and [src/analysis/fingerprint_modeler.py] (class
    [WebsiteFingerprintModeler]).

    - numpy [float64] values are IEEE-754 binary64 numbers, modelled by
      [spec_float] with [prec = 53] and [emax = 1024]; every arithmetic
      operation the Python code performs itself ([+], [*], [/], [==], [<],
      [>]) is the correctly rounded operation of [SpecFloat];
    - Python exceptions are an error monad ([result]); the modeler also
      threads the random generator and the logger ([M]);
    - functions of external libraries that are transcendental or whose
      code is not part of the repository (statsmodels' [KDEMultivariate],
      [np.std], [stats.iqr], [np.power], [np.log], [math.log]) and the
      dataset collaborator are section variables. *)

From Stdlib Require Import String Ascii.
From Stdlib Require Import ZArith List Bool Lia QArith PArith.
From Stdlib Require Import Floats.
Import ListNotations.

Local Open Scope Z_scope.

(** ** Binary64 floating point *)

Module F64.

Definition prec : Z := 53.
Definition emax : Z := 1024.

Definition float := spec_float.

Definition add : float -> float -> float := SFadd prec emax.
Definition sub : float -> float -> float := SFsub prec emax.
Definition mul : float -> float -> float := SFmul prec emax.
Definition div : float -> float -> float := SFdiv prec emax.
Definition opp : float -> float := SFopp.
Definition eqb : float -> float -> bool := SFeqb.
Definition ltb : float -> float -> bool := SFltb.
Definition leb : float -> float -> bool := SFleb.

Definition zero : float := S754_zero false.
Definition nzero : float := S754_zero true.
Definition nan : float := S754_nan.
Definition pinf : float := S754_infinity false.
Definition ninf : float := S754_infinity true.

(** Conversion of a Python [int] to [float] (round to nearest even). *)
Definition of_Z (z : Z) : float := binary_normalize prec emax z 0 false.

Definition one : float := of_Z 1.

(** [True -> 1.0], [False -> 0.0]: a boolean array entering float
    arithmetic. *)
Definition of_bool (b : bool) : float := if b then one else zero.

Definition is_nan (x : float) : bool :=
  match x with S754_nan => true | _ => false end.

Definition is_inf (x : float) : bool :=
  match x with S754_infinity _ => true | _ => false end.

(** Truth value of a float ([bool(x)], as used by [np.any]): everything
    but the two zeros is true, NaN included. *)
Definition truthy (x : float) : bool :=
  match x with S754_zero _ => false | _ => true end.

(** The decimal literals of the source, rounded to binary64. *)
Definition c_0_001 : float := S754_finite false 4611686018427388 (-62).
Definition c_0_99 : float := S754_finite false 8917127262193582 (-53).
Definition c_0_7413 : float := S754_finite false 6677036807539497 (-53).
Definition c_1_01 : float := S754_finite false 4548635623644201 (-52).


End F64.

Abbreviation float := F64.float.

Declare Scope f64_scope.
Delimit Scope f64_scope with f64.
Infix "+" := F64.add : f64_scope.
Infix "-" := F64.sub : f64_scope.
Infix "*" := F64.mul : f64_scope.
Infix "/" := F64.div : f64_scope.
Infix "==" := F64.eqb (at level 70, no associativity) : f64_scope.
Infix "<?" := F64.ltb : f64_scope.
Notation "- x" := (F64.opp x) : f64_scope.

(** ** Python exceptions *)

Inductive exn : Type :=
| IndexError
| ValueError
| ZeroDivisionError
| TypeError
| OverflowError
| AttributeError
| AssertionError
| KeyboardInterrupt
| OtherError (name : string).

Inductive result (A : Type) : Type :=
| Ok (a : A)
| Raise (e : exn).

Arguments Ok {A} a.
Arguments Raise {A} e.

Definition rbind {A B} (r : result A) (f : A -> result B) : result B :=
  match r with
  | Ok a => f a
  | Raise e => Raise e
  end.

Declare Scope result_scope.
Delimit Scope result_scope with result.
Notation "x <- c1 ;; c2" := (rbind c1 (fun x => c2))
  (at level 61, c1 at next level, right associativity) : result_scope.

(** ** Arrays *)

Definition vec := list float.

(** A two-dimensional [ndarray]: its shape is part of the value, so that an
    array with no row still has a column count. *)
Record ndarray2 : Type := mk_ndarray2 {
  nrows : nat;
  ncols : nat;
  cells : list vec
}.

Definition wf_ndarray2 (a : ndarray2) : Prop :=
  length (cells a) = nrows a /\
  Forall (fun r => length r = ncols a) (cells a).

Definition np_zeros (n d : nat) : ndarray2 :=
  mk_ndarray2 n d (repeat (repeat F64.zero d) n).

(** [np.isnan(v).any()], [np.isinf(v).any()] *)
Definition any_isnan (v : vec) : bool := existsb F64.is_nan v.
Definition any_isinf (v : vec) : bool := existsb F64.is_inf v.

(** [np.any(v)] *)
Definition np_any (v : vec) : bool := existsb F64.truthy v.

(** [v[mask]] with a boolean mask computed elementwise from [v]. *)
Definition mask_select (p : float -> bool) (v : vec) : vec := filter p v.

(** Binary operation on one-dimensional arrays with numpy's broadcasting:
    equal lengths, or one operand of length one; anything else is a
    [ValueError]. *)
Fixpoint zip_with (f : float -> float -> float) (x y : vec) : vec :=
  match x, y with
  | a :: x', b :: y' => f a b :: zip_with f x' y'
  | _, _ => []
  end.

Definition broadcast2 (f : float -> float -> float) (x y : vec) : result vec :=
  if Nat.eqb (List.length x) (List.length y) then Ok (zip_with f x y)
  else match x, y with
       | _, [b] => Ok (map (fun a => f a b) x)
       | [a], _ => Ok (map (fun b => f a b) y)
       | _, _ => Raise ValueError
       end.

(** [np.cumsum] *)
Fixpoint cumsum_from (acc : float) (v : vec) : vec :=
  match v with
  | [] => []
  | x :: v' => let s := F64.add acc x in s :: cumsum_from s v'
  end.

Definition np_cumsum (v : vec) : vec :=
  match v with
  | [] => []
  | x :: v' => x :: cumsum_from x v'
  end.

(** [np.maximum] and [np.minimum] on scalars: a NaN operand is returned. *)
Definition np_maximum (x y : float) : float :=
  if F64.leb y x || F64.is_nan x then x else y.

Definition np_minimum (x y : float) : float :=
  if F64.ltb x y || F64.is_nan x then x else y.

(** [np.amax]: a [ValueError] on an empty array. *)
Definition np_amax (v : vec) : result float :=
  match v with
  | [] => Raise ValueError
  | x :: v' => Ok (fold_left np_maximum v' x)
  end.

(** [np.sort] of a one-dimensional array (insertion into a sorted list). *)
Fixpoint sort_insert (x : float) (v : vec) : vec :=
  match v with
  | [] => [x]
  | y :: v' => if F64.leb x y then x :: v else y :: sort_insert x v'
  end.

Definition np_sort (v : vec) : vec := fold_right sort_insert [] v.

(** Column [j] of a matrix given by rows. *)
Definition column (j : nat) (m : list vec) : vec :=
  map (fun r => nth j r F64.zero) m.

(** Python's builtin [sum] over floats: the accumulator starts at [0]. *)
Definition py_sum (v : vec) : float := fold_left F64.add v F64.zero.

(** ** The interpreter *)

Inductive pyver : Type := Py2 | Py3.

Inductive pynum : Type :=
| PyInt (z : Z)
| PyFloat (x : float).

(** [a / b] on two Python [int]s: floor division in Python 2, true
    division in Python 3. *)
Definition py_int_div (v : pyver) (a b : Z) : result pynum :=
  if Z.eqb b 0 then Raise ZeroDivisionError
  else match v with
       | Py2 => Ok (PyInt (a / b))
       | Py3 => Ok (PyFloat (F64.div (F64.of_Z a) (F64.of_Z b)))
       end.

(** [x / n] with [x] a Python [float] and [n] a Python [int]. *)
Definition py_float_div_int (x : float) (n : Z) : result float :=
  if Z.eqb n 0 then Raise ZeroDivisionError
  else Ok (F64.div x (F64.of_Z n)).

(** [''.join(['c'] * n)] *)
Fixpoint var_vector (n : nat) : string :=
  match n with
  | O => EmptyString
  | S n' => String "c"%char (var_vector n')
  end.

(** ** The random generator

    [np.random] is a stream of standard normal draws and a stream of
    uniform draws on [0, 1); a call consumes a prefix of its stream. *)

Record rng : Type := mk_rng {
  normal_stream : nat -> float;
  uniform_stream : nat -> float;
  normal_pos : nat;
  uniform_pos : nat
}.

(** [np.random.normal(size=(n, d))] *)
Definition random_normal (n d : nat) (g : rng) : ndarray2 * rng :=
  (mk_ndarray2 n d
     (map (fun r =>
             map (fun c => normal_stream g (normal_pos g + r * d + c)%nat)
                 (seq 0 d))
          (seq 0 n)),
   mk_rng (normal_stream g) (uniform_stream g)
          (normal_pos g + n * d)%nat (uniform_pos g)).

(** [np.random.uniform(size=(n,))] *)
Definition random_uniform (n : nat) (g : rng) : vec * rng :=
  (map (fun k => uniform_stream g (uniform_pos g + k)%nat) (seq 0 n),
   mk_rng (normal_stream g) (uniform_stream g)
          (normal_pos g) (uniform_pos g + n)%nat).

(** In-place update of one list position (no effect out of range). *)
Fixpoint update_nth {A} (k : nat) (x : A) (l : list A) : list A :=
  match l, k with
  | [], _ => []
  | _ :: l', O => x :: l'
  | y :: l', S k' => y :: update_nth k' x l'
  end.

(** [points[ii, :] = rhs]: an [IndexError] when [ii] is not a row, a
    [ValueError] when [rhs] cannot be broadcast to a row. *)
Definition set_row (points : ndarray2) (ii : nat) (rhs : vec)
  : result ndarray2 :=
  if Nat.ltb ii (nrows points) then
    if Nat.eqb (List.length rhs) (ncols points) then
      Ok (mk_ndarray2 (nrows points) (ncols points)
                      (update_nth ii rhs (cells points)))
    else match rhs with
         | [x] => Ok (mk_ndarray2 (nrows points) (ncols points)
                        (update_nth ii (repeat x (ncols points))
                                    (cells points)))
         | _ => Raise ValueError
         end
  else Raise IndexError.

(** [l[k]] on a Python list or a one-dimensional array, [k >= 0]. *)
Definition index {A} (l : list A) (k : nat) : result A :=
  match nth_error l k with
  | Some x => Ok x
  | None => Raise IndexError
  end.

(** ** Python values of the modeler's interface *)

(** A feature index, or a list (of features, of clusters). *)
#[local] Set Warnings "-register-all".

Inductive pyobj : Type :=
| PInt (z : Z)
| PList (l : list pyobj).

(** [isinstance(x, Iterable)] *)
Definition is_iterable (x : pyobj) : bool :=
  match x with PList _ => true | PInt _ => false end.

(** [l[k]] on a Python list with a Python [int] index: negative indices
    count from the end. *)
Definition py_index {A} (l : list A) (k : Z) : result A :=
  let n := Z.of_nat (List.length l) in
  if (0 <=? k) && (k <? n) then index l (Z.to_nat k)
  else if (- n <=? k) && (k <? 0) then index l (Z.to_nat (n + k))
  else Raise IndexError.

(** The integer part of [m * 2^e]. *)
Definition trunc_magnitude (m : positive) (e : Z) : Z :=
  match e with
  | Z0 => Z.pos m
  | Z.pos p => Z.pos m * 2 ^ Z.pos p
  | Z.neg p => Z.pos m / 2 ^ Z.pos p
  end.

(** [int(x)] on a float: truncation toward zero. *)
Definition py_int (x : float) : result Z :=
  match x with
  | S754_nan => Raise ValueError
  | S754_infinity _ => Raise OverflowError
  | S754_zero _ => Ok 0
  | S754_finite s m e =>
      Ok (if s then - trunc_magnitude m e else trunc_magnitude m e)
  end.

(** [n * x] with [n] a Python [int] and [x] a float: the integer is
    converted first, which overflows for integers beyond the float range. *)
Definition py_int_mul_float (n : Z) (x : float) : result float :=
  if F64.is_inf (F64.of_Z n) then Raise OverflowError
  else Ok (F64.mul (F64.of_Z n) x).

(** ** The logger and the state of a run *)

Inductive log_record : Type :=
| Debug_measuring (clusters : pyobj)
| Warn_sum_of_probs (s : float)
| Debug_leakage (l c cf : float)
| Exception_estimating (clusters : pyobj) (e : exn).

Record world : Type := mk_world {
  w_rng : rng;
  w_log : list log_record
}.

(** Computations that may raise, draw random numbers and log. *)
Definition M (A : Type) : Type := world -> result A * world.

Definition mret {A} (a : A) : M A := fun w => (Ok a, w).

Definition mraise {A} (e : exn) : M A := fun w => (Raise e, w).

Definition mbind {A B} (c : M A) (f : A -> M B) : M B :=
  fun w =>
    match c w with
    | (Ok a, w') => f a w'
    | (Raise e, w') => (Raise e, w')
    end.

Definition lift {A} (r : result A) : M A := fun w => (r, w).

Definition logger (r : log_record) : M unit :=
  fun w => (Ok tt, mk_world (w_rng w) (w_log w ++ [r])).

Declare Scope m_scope.
Delimit Scope m_scope with M.
Notation "x <~ c1 ;; c2" := (mbind c1 (fun x => c2))
  (at level 61, c1 at next level, right associativity) : m_scope.

Fixpoint mapM {A B} (f : A -> M B) (l : list A) : M (list B) :=
  match l with
  | [] => mret []
  | x :: l' => mbind (f x) (fun y => mbind (mapM f l') (fun ys => mret (y :: ys)))
  end.

(** [try: body  except CLAUSE: handler], where [clause_matches e] is the
    outcome of matching a raised exception against the evaluated clause
    (which may itself raise). *)
Definition try_except {A} (body : M A) (clause_matches : exn -> result bool)
    (handler : exn -> M A) : M A :=
  fun w =>
    match body w with
    | (Ok a, w') => (Ok a, w')
    | (Raise e, w') =>
        match clause_matches e with
        | Ok true => handler e w'
        | Ok false => (Raise e, w')
        | Raise e' => (Raise e', w')
        end
    end.

(** The value of an [except] clause expression. *)
Inductive clause_value : Type :=
| ExceptionClass (matches : exn -> bool)
| NotAClass (b : bool).

(** Classes are true values: [not C] is [False]. *)
Definition py_not_class : clause_value := NotAClass false.

(** Matching a raised exception against an evaluated clause.  A value that
    is not a class (or tuple of classes) matches nothing in Python 2 and
    is a [TypeError] in Python 3. *)
Definition exception_matches (v : pyver) (c : clause_value) (e : exn)
  : result bool :=
  match c with
  | ExceptionClass matches => Ok (matches e)
  | NotAClass _ =>
      match v with
      | Py2 => Ok false
      | Py3 => Raise TypeError
      end
  end.

(** ** The density estimator: [kde_wrapper.AKDE] *)

Section Estimator.

Local Open Scope result_scope.

(** The interpreter that runs the code. *)
Variable py : pyver.

(** statsmodels' [KDEMultivariate]: the fitted object, its constructor
    [KDEMultivariate(data, var_type, bw=bw)] and its method [pdf]. *)
Variable kde_t : Type.
Variable KDEMultivariate : ndarray2 -> string -> vec -> result kde_t.
Variable kde_pdf : kde_t -> list vec -> result vec.

(** numpy and scipy functions used by the bandwidth selectors:
    [np.std] of a one-dimensional sample, [stats.iqr] of a flat sample,
    [np.power(N, e)] for a Python [int] [N]. *)
Variable np_std : vec -> float.
Variable stats_iqr : vec -> float.
Variable np_power : Z -> pynum -> result float.

(** [np.log], [np.mean] and [np.dot] on one-dimensional arrays. *)
Variable np_log : float -> float.
Variable np_mean : vec -> float.
Variable np_dot : vec -> vec -> float.

(** [AKDE._ksizeHall]: the Hall plug-in selector.  Its body is numerics
    over [np.exp] and complex powers; the constructor only inspects its
    result, so it enters the model through its result. *)
Variable ksizeHall : ndarray2 -> result vec.

(** [AKDE._ksizeROT].  [X = np.transpose(X)] makes the rows of [X] the
    columns of the data; [stats.iqr] is called without [axis], so it is
    computed over the flattened array and [iqrSig] is a scalar. *)
Definition ksizeROT (X : ndarray2) : result vec :=
  let dim := ncols X in
  let N := nrows X in
  let prop := F64.one in
  let sig := map (fun j => np_std (column j (cells X))) (seq 0 dim) in
  let iqrSig := F64.mul F64.c_0_7413 (stats_iqr (concat (cells X))) in
  (* [if np.amax(iqrSig) == 0: iqrSig = sig] *)
  let iqr_term := fun s : float =>
    if F64.eqb iqrSig F64.zero then s else iqrSig in
  e <- py_int_div py (-1) (4 + Z.of_nat dim) ;;
  pw <- np_power (Z.of_nat N) e ;;
  Ok (map (fun s => F64.mul (F64.mul prop (np_minimum s (iqr_term s))) pw)
          sig).

Record AKDE : Type := mk_AKDE {
  _data : ndarray2;
  _n_kernels : nat;
  _n_features : nat;
  _weights : vec;
  _bw : vec;
  _kde : kde_t
}.

(** The bandwidth the constructor settles on (lines 32-35). *)
Definition select_bw (data : ndarray2) (bw : option vec) : result vec :=
  match bw with
  | Some b => Ok b
  | None =>
      h <- ksizeHall data ;;
      if any_isnan h || any_isinf h then ksizeROT data else Ok h
  end.

(** [bw + (bw == 0.)*0.001], elementwise (line 37). *)
Definition replace_zero (b : float) : float :=
  F64.add b (F64.mul (F64.of_bool (F64.eqb b F64.zero)) F64.c_0_001).

(** [AKDE.__init__] *)
Definition AKDE_init (data : ndarray2) (weights : option vec)
    (bw : option vec) : result AKDE :=
  let n_kernels := nrows data in
  let n_features := ncols data in
  w <- match weights with
       | Some w => Ok w
       | None =>
           x <- py_float_div_int F64.one (Z.of_nat n_kernels) ;;
           Ok (repeat x n_kernels)
       end ;;
  b <- select_bw data bw ;;
  let bw' := map replace_zero b in
  k <- KDEMultivariate data (var_vector n_features) b ;;
  Ok (mk_AKDE data n_kernels n_features w bw' k).

(** [AKDE.predict] *)
Definition predict (a : AKDE) (data : list vec) : result vec :=
  kde_pdf (_kde a) data.

(** [probs[probs == 0.] = 1.] *)
Definition zero_to_one (p : float) : float :=
  if F64.eqb p F64.zero then F64.one else p.

(** [self._weights[probs <= 0.]] *)
Fixpoint weights_where_nonpositive (w probs : vec) : vec :=
  match w, probs with
  | x :: w', p :: probs' =>
      if F64.leb p F64.zero then x :: weights_where_nonpositive w' probs'
      else weights_where_nonpositive w' probs'
  | _, _ => []
  end.

(** [AKDE.entropy] *)
Definition entropy (a : AKDE) (data : option (list vec)) : result float :=
  match data with
  | Some d =>
      probs <- predict a d ;;
      if np_any (mask_select (fun p => F64.eqb p F64.zero) probs)
      then Ok F64.ninf
      else Ok (F64.opp (np_mean (map np_log probs)))
  | None =>
      probs <- predict a (cells (_data a)) ;;
      _ <- (if Nat.eqb (List.length probs) (List.length (_weights a))
            then Ok tt else Raise IndexError) ;;
      if np_any (weights_where_nonpositive (_weights a) probs)
      then Ok F64.ninf
      else Ok (F64.opp (np_dot (map np_log (map zero_to_one probs))
                               (_weights a)))
  end.

(** *** [AKDE.sample] *)

(** The right-hand side of line 71:
    [self._data[i, :] + (bw[i, :] * randnums[ii, :])]. *)
Definition kernel_draw (a : AKDE) (bw : list vec) (randnums : ndarray2)
    (i ii : nat) : result vec :=
  c <- index (cells (_data a)) i ;;
  b <- index bw i ;;
  r <- index (cells randnums) ii ;;
  noise <- broadcast2 F64.mul b r ;;
  broadcast2 F64.add c noise.

(** The [while w[i] > t[ii]] loop of kernel [i].  [ts] is the part of the
    threshold list [t] from position [ii] on, so that [t[ii]] is its head
    and an exhausted [ts] is the [IndexError] of [t[ii]]. *)
Fixpoint sample_while (a : AKDE) (bw : list vec) (randnums : ndarray2)
    (w : vec) (i : nat) (ts : list float) (points : ndarray2) (ii : nat)
  : result (ndarray2 * nat * list float) :=
  match ts with
  | [] => Raise IndexError
  | th :: ts' =>
      wi <- index w i ;;
      if F64.ltb th wi then
        rhs <- kernel_draw a bw randnums i ii ;;
        points' <- set_row points ii rhs ;;
        sample_while a bw randnums w i ts' points' (S ii)
      else Ok (points, ii, ts)
  end.

(** The [for i in range(self._n_kernels)] loop. *)
Fixpoint sample_for (a : AKDE) (bw : list vec) (randnums : ndarray2)
    (w : vec) (kernels : list nat) (ts : list float) (points : ndarray2)
    (ii : nat) : result ndarray2 :=
  match kernels with
  | [] => Ok points
  | i :: kernels' =>
      st <- sample_while a bw randnums w i ts points ii ;;
      let '(points', ii', ts') := st in
      sample_for a bw randnums w kernels' ts' points' ii'
  end.

(** [assert(c)] *)
Definition py_assert (c : bool) : result unit :=
  if c then Ok tt else Raise AssertionError.

(** Lines 61-76, once the random draws [randnums] and [u] are made. *)
Definition sample_with (a : AKDE) (n_samples : nat) (randnums : ndarray2)
    (u : vec) : result ndarray2 :=
  let bw := repeat (_bw a) (_n_kernels a) in
  let points := np_zeros n_samples (_n_features a) in
  let w0 := np_cumsum (_weights a) in
  m <- np_amax w0 ;;
  let w := map (fun x => F64.div x m) w0 in
  let t := np_sort u ++ [F64.one] in
  let ii := 1%nat in
  points' <- sample_for a bw randnums w (seq 0 (_n_kernels a))
                        (skipn ii t) points ii ;;
  _ <- py_assert (Nat.eqb (nrows points') n_samples) ;;
  _ <- py_assert (Nat.eqb (ncols points') (ncols (_data a))) ;;
  Ok points'.

(** [AKDE.sample]: the draws are taken from the generator, the normal
    ones (line 58) before the weights are normalised, the uniform ones
    (line 63) after. *)
Definition sample (a : AKDE) (n_samples : nat) (g : rng)
  : result ndarray2 * rng :=
  let '(randnums, g1) := random_normal n_samples (_n_features a) g in
  match np_amax (np_cumsum (_weights a)) with
  | Raise e => (Raise e, g1)
  | Ok _ =>
      let '(u, g2) := random_uniform n_samples g1 in
      (sample_with a n_samples randnums u, g2)
  end.

(** ** The leakage estimator: [fingerprint_modeler.WebsiteFingerprintModeler]

    The estimator class the modeler imports is the density estimator of
    [kde_wrapper]. *)

Local Open Scope m_scope.

(** The dataset collaborator ([self.data]): the site identifiers, and the
    observations of one feature for one site or for all sites. *)
Variable sites : list Z.
Variable get_site : Z -> pyobj -> result vec.
Variable get_feature : pyobj -> result vec.

(** [math.log(x, 2)] *)
Variable math_log2 : float -> float.

(** [np.hstack((X, X_f))] for two-dimensional arrays. *)
Definition np_hstack (X X_f : ndarray2) : result ndarray2 :=
  if Nat.eqb (nrows X) (nrows X_f)
  then Ok (mk_ndarray2 (nrows X) (ncols X + ncols X_f)
                       (map (fun rr => fst rr ++ snd rr)
                            (combine (cells X) (cells X_f))))
  else Raise ValueError.

(** The loop of [_make_kde] that builds [X] (lines 46-61). *)
Fixpoint build_X (site : option Z) (features : list pyobj)
    (X : option ndarray2) : result (option ndarray2) :=
  match features with
  | [] => Ok X
  | feature :: features' =>
      rbind (match site with
             | Some c => get_site c feature
             | None => get_feature feature
             end)
        (fun x_f =>
           let X_f := mk_ndarray2 (List.length x_f) 1
                                  (map (fun v => [v]) x_f) in
           rbind (match X with
                  | None => Ok X_f
                  | Some X0 => np_hstack X0 X_f
                  end)
             (fun X' => build_X site features' (Some X')))
  end.

(** [_make_kde]: [KDE(None)] fails on [None.shape]. *)
Definition _make_kde (features : pyobj) (site : option Z) : result AKDE :=
  let features' := match features with
                   | PList l => l
                   | PInt _ => [features]
                   end in
  rbind (build_X site features' None)
    (fun X => match X with
              | None => Raise AttributeError
              | Some X0 => AKDE_init X0 None None
              end).

(** Line 95: [num = int(sample_size * web_priors[site])]. *)
Definition site_allotment (web_priors : vec) (sample_size : Z) (site : Z)
  : result Z :=
  rbind (py_index web_priors site)
    (fun prior =>
       rbind (py_int_mul_float sample_size prior) py_int).

(** [x = mkde.sample(num)], drawing from the generator of the run. *)
Definition draw (mkde : AKDE) (num : nat) : M ndarray2 :=
  fun w =>
    let '(r, g) := sample mkde num (w_rng w) in
    (r, mk_world g (w_log w)).

(** The inner loop of [_sample] over [zip(self.data.sites, site_mkdes)]. *)
Fixpoint sample_group (pairs : list (Z * AKDE)) (web_priors : vec)
    (sample_size : Z) (group_samples : list vec) : M (list vec) :=
  match pairs with
  | [] => mret group_samples
  | (site, mkde) :: pairs' =>
      num <~ lift (site_allotment web_priors sample_size site) ;;
      if 0 <? num then
        pts <~ draw mkde (Z.to_nat num) ;;
        sample_group pairs' web_priors sample_size
                     (group_samples ++ cells pts)
      else sample_group pairs' web_priors sample_size group_samples
  end.

(** [_sample] *)
Definition _sample (mkdes : list (list AKDE)) (web_priors : vec)
    (sample_size : Z) : M (list (list vec)) :=
  mapM (fun site_mkdes =>
          sample_group (combine sites site_mkdes) web_priors sample_size [])
       mkdes.

(** *** [information_leakage] *)

(** Lines 130-133: a bare feature becomes a one-feature cluster, a bare
    list of features becomes a single cluster. *)
Definition normalize_clusters (clusters : pyobj) : result pyobj :=
  let clusters1 := if is_iterable clusters then clusters
                   else PList [clusters] in
  match clusters1 with
  | PList l =>
      rbind (index l 0)
        (fun c0 => if is_iterable c0 then Ok clusters1
                   else Ok (PList [clusters1]))
  | PInt _ => Raise TypeError
  end.

(** [for features in clusters] *)
Definition iterate (x : pyobj) : result (list pyobj) :=
  match x with
  | PList l => Ok l
  | PInt _ => Raise TypeError
  end.

(** Shannon entropy term, [h = lambda x: -x * math.log(x, 2)]. *)
Definition h (x : float) : float := F64.mul (F64.opp x) (math_log2 x).

(** [sum([h(p) for p in v if p > 0])] *)
Definition entropy_of (v : vec) : float :=
  py_sum (map h (filter (fun p => F64.ltb F64.zero p) v)).

(** [[1/float(len(self.data.sites)) for _ in self.data.sites]] *)
Definition website_priors : vec :=
  map (fun _ => F64.div F64.one (F64.of_Z (Z.of_nat (List.length sites))))
      sites.

(** [prob *= arr] on an array accumulator. *)
Definition imul (prob arr : vec) : result vec :=
  if Nat.eqb (List.length arr) (List.length prob)
  then Ok (zip_with F64.mul prob arr)
  else match arr with
       | [x] => Ok (map (fun p => F64.mul p x) prob)
       | _ => Raise ValueError
       end.

(** Lines 158-160 for site [i]: [prob = 1], then the product over the
    clusters [j] of [cluster_prob_set[j][i]]. *)
Fixpoint joint_prob (cluster_prob_set : list (list vec)) (i : nat)
    (prob : option vec) : result (option vec) :=
  match cluster_prob_set with
  | [] => Ok prob
  | site_probs :: rest =>
      rbind (index site_probs i)
        (fun arr =>
           rbind (match prob with
                  | None => Ok (map (F64.mul (F64.of_Z 1)) arr)
                  | Some p => imul p arr
                  end)
             (fun p' => joint_prob rest i (Some p')))
  end.

(** [np.array(prob_set).transpose((1, 0))]: the arrays must stack into a
    two-dimensional array. *)
Definition np_array_transpose (prob_set : list vec) : result (list vec) :=
  match prob_set with
  | [] => Raise ValueError
  | r0 :: _ =>
      if forallb (fun r => Nat.eqb (List.length r) (List.length r0)) prob_set
      then Ok (map (fun s => column s prob_set) (seq 0 (List.length r0)))
      else Raise ValueError
  end.

(** Line 167-168: weight by the priors. *)
Definition weight_by_priors (prob_set : list vec) : list vec :=
  map (fun prob_inst => zip_with F64.mul prob_inst website_priors) prob_set.

(** Lines 171-172: normalise each sample's vector. *)
Definition normalize_probs (prob_temp : list vec) : list vec :=
  map (fun prob_inst =>
         map (fun prob => F64.div prob (py_sum prob_inst)) prob_inst)
      prob_temp.

(** Lines 175-177: the check of the sums. *)
Fixpoint check_sums (prob_indiv : list vec) : M unit :=
  match prob_indiv with
  | [] => mret tt
  | prob_inst :: rest =>
      _ <~ (if F64.ltb (py_sum prob_inst) F64.c_0_99
            then logger (Warn_sum_of_probs (py_sum prob_inst))
            else mret tt) ;;
      check_sums rest
  end.

(** Lines 164-193: from the joint densities to the leakage. *)
Definition leakage_of_probs (H_C : float) (prob_set : list vec) : M float :=
  prob_set' <~ lift (np_array_transpose prob_set) ;;
  let prob_temp := weight_by_priors prob_set' in
  let prob_indiv := normalize_probs prob_temp in
  _ <~ check_sums prob_indiv ;;
  let entropies := map entropy_of prob_indiv in
  H_CF <~ lift (py_float_div_int (py_sum entropies)
                                 (Z.of_nat (List.length entropies))) ;;
  let leakage := F64.sub H_C H_CF in
  _ <~ logger (Debug_leakage leakage H_C H_CF) ;;
  mret leakage.

(** The body of the [try] block, after [clusters] is normalised. *)
Definition leakage_body (sample_size : Z) (clusters : pyobj) : M float :=
  _ <~ logger (Debug_measuring clusters) ;;
  cl <~ lift (iterate clusters) ;;
  cluster_mkdes <~ mapM (fun features =>
                     mapM (fun site => lift (_make_kde features (Some site)))
                          sites) cl ;;
  let H_C := entropy_of website_priors in
  cluster_samples <~ _sample cluster_mkdes website_priors sample_size ;;
  cluster_prob_set <~ mapM (fun ms =>
                        mapM (fun mkde => lift (predict mkde (snd ms)))
                             (fst ms))
                      (combine cluster_mkdes cluster_samples) ;;
  first <~ lift (index cluster_prob_set 0) ;;
  prob_set <~ mapM (fun i =>
                 p <~ lift (joint_prob cluster_prob_set i None) ;;
                 match p with
                 | Some v => mret v
                 | None => mraise IndexError
                 end)
              (seq 0 (List.length first)) ;;
  leakage_of_probs H_C prob_set.

(** The [try] block of [information_leakage] (lines 129-193). *)
Definition leakage_try (sample_size : Z) (clusters : pyobj)
  : M (option float) :=
  cl <~ lift (normalize_clusters clusters) ;;
  leakage <~ leakage_body sample_size cl ;;
  mret (Some leakage).

(** The handler (lines 196-199).  It logs the value [clusters] has when
    the exception is raised. *)
Definition leakage_handler (clusters : pyobj) (e : exn) : M (option float) :=
  let current := match normalize_clusters clusters with
                 | Ok cl => cl
                 | Raise _ => clusters
                 end in
  _ <~ logger (Exception_estimating current e) ;;
  mret None.

(** [information_leakage]: the [try] block under the clause
    [except not KeyboardInterrupt]. *)
Definition information_leakage (sample_size : Z) (clusters : pyobj)
  : M (option float) :=
  try_except (leakage_try sample_size clusters)
             (exception_matches py py_not_class)
             (leakage_handler clusters).

(** The records [check_sums] adds to the log. *)
Definition warnings_for (prob_indiv : list vec) : list log_record :=
  map Warn_sum_of_probs
      (filter (fun s => F64.ltb s F64.c_0_99) (map py_sum prob_indiv)).


(** ** Vocabulary of the properties *)

(** The exponent [-1 / (4 + dim)] as the interpreter evaluates it. *)
Definition rot_exponent (dim : nat) : pynum :=
  match py with
  | Py2 => PyInt (-1)
  | Py3 => PyFloat (F64.div (F64.of_Z (-1)) (F64.of_Z (4 + Z.of_nat dim)))
  end.

(** [points'] has the shape of [points], is well formed when [points] is,
    and has the same first row. *)
Definition same_frame (points points' : ndarray2) : Prop :=
  nrows points' = nrows points /\
  ncols points' = ncols points /\
  (wf_ndarray2 points -> wf_ndarray2 points') /\
  nth_error (cells points') 0 = nth_error (cells points) 0.

(** The loops of [sample] only fail on an index or on a shape. *)
Definition index_or_shape (e : exn) : Prop := e = IndexError \/ e = ValueError.







(** A 5 x 2 data matrix whose first column has interquartile range 0 and
    standard deviation 4, whose second column has interquartile range 2,
    and whose ten entries together have interquartile range 3.75. *)
Definition rot_example : ndarray2 :=
  mk_ndarray2 5 2
    (map (map F64.of_Z) [[0; 1]; [0; 2]; [0; 3]; [0; 4]; [10; 5]]).

Definition three_and_three_quarters : float :=
  F64.div (F64.of_Z 15) (F64.of_Z 4).

(** A row of the array [sample] returns, at index [r]: still the row of
    [np.zeros], or the value of line 71 for some kernel [i], stored with
    numpy's broadcasting of a one-entry value to the row. *)
Definition drawn_row (a : AKDE) (randnums : ndarray2) (d r : nat)
    (row : vec) : Prop :=
  row = repeat F64.zero d \/
  exists i rhs,
    kernel_draw a (repeat (_bw a) (_n_kernels a)) randnums i r = Ok rhs /\
    (row = rhs \/ exists x, rhs = [x] /\ row = repeat x d).

(** The observations [_make_kde] fetches for one feature (lines 50-53). *)
Definition feature_vector (site : option Z) (feature : pyobj) : result vec :=
  match site with
  | Some c => get_site c feature
  | None => get_feature feature
  end.

(** The features [_make_kde] iterates over (lines 42-43). *)
Definition feature_list (features : pyobj) : list pyobj :=
  match features with
  | PList l => l
  | PInt _ => [features]
  end.

(** ** Properties of the float constants *)

(** The constants are the binary64 roundings of the decimal literals. *)
#[local] Set Warnings "-inexact-float".

Lemma c_0_001_literal : Prim2SF 0.001%float = F64.c_0_001.
Proof. reflexivity. Qed.

Lemma c_0_99_literal : Prim2SF 0.99%float = F64.c_0_99.
Proof. reflexivity. Qed.

Lemma c_0_7413_literal : Prim2SF 0.7413%float = F64.c_0_7413.
Proof. reflexivity. Qed.

Lemma c_1_01_literal : Prim2SF 1.01%float = F64.c_1_01.
Proof. reflexivity. Qed.

Lemma one_literal : Prim2SF 1%float = F64.one.
Proof. reflexivity. Qed.

(** ** Properties of the constructor *)

Lemma replace_zero_of_zero (b : float) :
  F64.eqb b F64.zero = true -> replace_zero b = F64.c_0_001.
Proof.
  destruct b as [s | s | | s m e]; try destruct s; cbv; congruence.
Qed.

Lemma replace_zero_of_nonzero (b : float) :
  F64.eqb b F64.zero = false -> replace_zero b = b.
Proof.
  destruct b as [s | s | | s m e]; try destruct s;
    try (cbv; congruence); intros _; reflexivity.
Qed.

Lemma replace_zero_nonzero (b : float) :
  F64.eqb (replace_zero b) F64.zero = false.
Proof.
  destruct (F64.eqb b F64.zero) eqn:E.
  - rewrite (replace_zero_of_zero b E). reflexivity.
  - rewrite (replace_zero_of_nonzero b E). exact E.
Qed.


(** What a successful construction stores. *)
Lemma AKDE_init_inv data weights bw a :
  AKDE_init data weights bw = Ok a ->
  exists b,
    select_bw data bw = Ok b /\
    KDEMultivariate data (var_vector (ncols data)) b = Ok (_kde a) /\
    _bw a = map replace_zero b /\
    _data a = data /\
    _n_kernels a = nrows data /\
    _n_features a = ncols data.
Proof.
  unfold AKDE_init. intros H.
  destruct (match weights with
            | Some w => Ok w
            | None => _
            end) as [w | e]; [simpl in H | discriminate].
  destruct (select_bw data bw) as [b | e]; [simpl in H | discriminate].
  destruct (KDEMultivariate data (var_vector (ncols data)) b) as [k | e]
    eqn:Hk; [simpl in H | discriminate].
  injection H as <-. exists b. simpl. repeat split; auto.
Qed.


(** [sample_with] reads the centers, the weights and the stored
    bandwidth, never the [KDEMultivariate] object. *)
Lemma sample_while_ignores_kde d nk nf wts b k1 k2 bw randnums w i ts :
  forall points ii,
    sample_while (mk_AKDE d nk nf wts b k1) bw randnums w i ts points ii
    = sample_while (mk_AKDE d nk nf wts b k2) bw randnums w i ts points ii.
Proof.
  induction ts as [| th ts IH]; intros points ii; simpl; [reflexivity |].
  destruct (index w i) as [wi | e]; simpl; [| reflexivity].
  destruct (F64.ltb th wi); [| reflexivity].
  change (kernel_draw (mk_AKDE d nk nf wts b k1) bw randnums i ii)
    with (kernel_draw (mk_AKDE d nk nf wts b k2) bw randnums i ii).
  destruct (kernel_draw _ bw randnums i ii) as [rhs | e]; simpl;
    [| reflexivity].
  destruct (set_row points ii rhs) as [p' | e]; simpl; [| reflexivity].
  apply IH.
Qed.

Lemma sample_for_ignores_kde d nk nf wts b k1 k2 bw randnums w kernels :
  forall ts points ii,
    sample_for (mk_AKDE d nk nf wts b k1) bw randnums w kernels ts points ii
    = sample_for (mk_AKDE d nk nf wts b k2) bw randnums w kernels ts
                 points ii.
Proof.
  induction kernels as [| i kernels IH]; intros ts points ii; simpl;
    [reflexivity |].
  rewrite (sample_while_ignores_kde d nk nf wts b k1 k2).
  destruct (sample_while _ bw randnums w i ts points ii)
    as [[[p' ii'] ts'] | e]; simpl; [apply IH | reflexivity].
Qed.

Lemma sample_with_ignores_kde d nk nf wts b k1 k2 n r u :
  sample_with (mk_AKDE d nk nf wts b k1) n r u
  = sample_with (mk_AKDE d nk nf wts b k2) n r u.
Proof.
  unfold sample_with. simpl.
  destruct (np_amax (np_cumsum wts)) as [m | e]; simpl; [| reflexivity].
  rewrite (sample_for_ignores_kde d nk nf wts b k1 k2). reflexivity.
Qed.

(** C4: when the selected bandwidth has a zero component, the internal
    [KDEMultivariate] object is built from that very vector (zero
    included) and [predict] is its [pdf]; the substitution by 0.001 only
    reaches the stored vector [_bw], which differs from the fitted one.
    [predict] does not read [_bw], and [sample_with] does not read
    [_kde]. *)
Theorem kde_fit_with_unsubstituted_bw data weights bw a b :
  AKDE_init data weights bw = Ok a ->
  select_bw data bw = Ok b ->
  Exists (fun x => F64.eqb x F64.zero = true) b ->
  KDEMultivariate data (var_vector (ncols data)) b = Ok (_kde a) /\
  (forall pts, predict a pts = kde_pdf (_kde a) pts) /\
  _bw a = map replace_zero b /\
  _bw a <> b /\
  (forall bw', predict (mk_AKDE (_data a) (_n_kernels a) (_n_features a)
                                (_weights a) bw' (_kde a))
               = predict a) /\
  (forall k' n r u,
      sample_with (mk_AKDE (_data a) (_n_kernels a) (_n_features a)
                           (_weights a) (_bw a) k') n r u
      = sample_with a n r u).
Proof.
  intros H Hb Hz.
  destruct (AKDE_init_inv _ _ _ _ H) as (b' & Hb' & Hk & Hbw & _).
  rewrite Hb in Hb'. injection Hb' as <-.
  repeat split; auto.
  - intros Heq. rewrite Hbw in Heq.
    apply Exists_exists in Hz. destruct Hz as (x & Hx & Hx0).
    assert (Hall : Forall (fun y => F64.eqb y F64.zero = false) b).
    { rewrite <- Heq. apply Forall_forall. intros y Hy.
      apply in_map_iff in Hy. destruct Hy as (z & <- & _).
      apply replace_zero_nonzero. }
    rewrite Forall_forall in Hall. specialize (Hall x Hx). congruence.
  - intros k' n r u. destruct a. apply sample_with_ignores_kde.
Qed.

(** C5: without an explicit bandwidth the Hall plug-in selector runs
    first; when its result has a NaN or infinite component the selected
    bandwidth is the result of the Rule-of-Thumb selector, otherwise it is
    the Hall result.  In the first case the fitted estimator is built from
    the Rule-of-Thumb vector alone. *)
Theorem hall_then_rule_of_thumb data h :
  ksizeHall data = Ok h ->
  select_bw data None
  = (if any_isnan h || any_isinf h then ksizeROT data else Ok h) /\
  (any_isnan h || any_isinf h = true ->
   forall weights a,
     AKDE_init data weights None = Ok a ->
     exists r,
       ksizeROT data = Ok r /\
       _bw a = map replace_zero r /\
       KDEMultivariate data (var_vector (ncols data)) r = Ok (_kde a)).
Proof.
  intros Hh. assert (Hsel : select_bw data None
    = (if any_isnan h || any_isinf h then ksizeROT data else Ok h)).
  { unfold select_bw. rewrite Hh. reflexivity. }
  split; [exact Hsel |].
  intros Hdeg weights a Ha.
  destruct (AKDE_init_inv _ _ _ _ Ha) as (b & Hb & Hk & Hbw & _).
  rewrite Hsel, Hdeg in Hb. exists b. auto.
Qed.

(** ** Properties of [sample] *)

Lemma update_nth_length {A} (k : nat) (x : A) (l : list A) :
  List.length (update_nth k x l) = List.length l.
Proof.
  revert k. induction l as [| y l IH]; intros [| k]; simpl; auto.
Qed.

Lemma update_nth_Forall {A} (P : A -> Prop) (k : nat) (x : A) (l : list A) :
  P x -> Forall P l -> Forall P (update_nth k x l).
Proof.
  intros Hx. revert k. induction l as [| y l IH]; intros [| k] Hl; simpl;
    auto; inversion Hl; subst; constructor; auto.
Qed.

Lemma update_nth_head {A} (k : nat) (x : A) (l : list A) :
  nth_error (update_nth (S k) x l) 0 = nth_error l 0.
Proof. destruct l; reflexivity. Qed.

Lemma same_frame_refl points : same_frame points points.
Proof. unfold same_frame. auto. Qed.

Lemma same_frame_trans p1 p2 p3 :
  same_frame p1 p2 -> same_frame p2 p3 -> same_frame p1 p3.
Proof.
  unfold same_frame. intros (A1 & A2 & A3 & A4) (B1 & B2 & B3 & B4).
  split; [congruence |]. split; [congruence |]. split; [auto | congruence].
Qed.

Lemma set_row_frame points ii rhs points' :
  set_row points (S ii) rhs = Ok points' -> same_frame points points'.
Proof.
  unfold set_row. destruct (Nat.ltb (S ii) (nrows points)); [| discriminate].
  assert (Hgen : forall row, List.length row = ncols points ->
    same_frame points
      (mk_ndarray2 (nrows points) (ncols points)
                   (update_nth (S ii) row (cells points)))).
  { intros row Hrow. unfold same_frame, wf_ndarray2. cbn [nrows ncols cells].
    split; [reflexivity |]. split; [reflexivity |].
    split; [| apply update_nth_head].
    intros [Hlen Hrows]. split.
    - rewrite update_nth_length. exact Hlen.
    - apply update_nth_Forall; [exact Hrow | exact Hrows]. }
  destruct (Nat.eqb (List.length rhs) (ncols points)) eqn:E.
  - intros [= <-]. apply Hgen. now apply Nat.eqb_eq.
  - destruct rhs as [| x [| y rhs]]; try discriminate.
    intros [= <-]. apply Hgen. apply repeat_length.
Qed.

Lemma sample_while_frame a bw randnums w i ts :
  forall points ii points' ii' ts',
    sample_while a bw randnums w i ts points (S ii) = Ok (points', ii', ts') ->
    same_frame points points' /\ exists k, ii' = S k.
Proof.
  induction ts as [| th ts IH]; intros points ii points' ii' ts'; simpl;
    [discriminate |].
  destruct (index w i) as [wi | e]; simpl; [| discriminate].
  destruct (F64.ltb th wi).
  - destruct (kernel_draw a bw randnums i (S ii)) as [rhs | e]; simpl;
      [| discriminate].
    destruct (set_row points (S ii) rhs) as [p1 | e] eqn:Hset; simpl;
      [| discriminate].
    intros H. apply IH in H. destruct H as [Hf Hk]. split; [| exact Hk].
    eapply same_frame_trans; [| exact Hf]. eapply set_row_frame; eauto.
  - intros [= <- <- <-]. split; [apply same_frame_refl | eauto].
Qed.

Lemma sample_for_frame a bw randnums w kernels :
  forall ts points ii points',
    sample_for a bw randnums w kernels ts points (S ii) = Ok points' ->
    same_frame points points'.
Proof.
  induction kernels as [| i kernels IH]; intros ts points ii points'; simpl.
  - intros [= <-]. apply same_frame_refl.
  - destruct (sample_while a bw randnums w i ts points (S ii))
      as [[[p1 ii1] ts1] | e] eqn:Hw; simpl; [| discriminate].
    apply sample_while_frame in Hw. destruct Hw as [Hf [k ->]].
    intros H. apply IH in H. eapply same_frame_trans; eauto.
Qed.

Lemma np_zeros_wf n d : wf_ndarray2 (np_zeros n d).
Proof.
  split; simpl; [apply repeat_length |].
  apply Forall_forall. intros r Hr. apply repeat_spec in Hr. subst.
  apply repeat_length.
Qed.

(** Whatever [sample_with] returns has the shape of the array allocated on
    line 57, and its first row is still the row of zeros of [np.zeros]. *)
Lemma sample_with_frame a n randnums u points :
  sample_with a n randnums u = Ok points ->
  same_frame (np_zeros n (_n_features a)) points.
Proof.
  unfold sample_with.
  destruct (np_amax (np_cumsum (_weights a))) as [m | e]; simpl;
    [| discriminate].
  destruct (sample_for _ _ _ _ _ _ _ _) as [p1 | e] eqn:Hfor; simpl;
    [| discriminate].
  apply sample_for_frame in Hfor.
  destruct (py_assert (Nat.eqb (nrows p1) n)); simpl; [| discriminate].
  destruct (py_assert (Nat.eqb (ncols p1) (ncols (_data a)))); simpl;
    [| discriminate].
  intros [= <-]. exact Hfor.
Qed.

Lemma sample_with_shape a n randnums u points :
  sample_with a n randnums u = Ok points ->
  nrows points = n /\ ncols points = _n_features a /\ wf_ndarray2 points.
Proof.
  intros H. apply sample_with_frame in H. destruct H as (H1 & H2 & H3 & _).
  simpl in *. repeat split; auto; apply H3, np_zeros_wf.
Qed.

Lemma sample_unfold a n g :
  fst (sample a n g)
  = rbind (np_amax (np_cumsum (_weights a)))
      (fun _ =>
         sample_with a n
           (fst (random_normal n (_n_features a) g))
           (fst (random_uniform n (snd (random_normal n (_n_features a) g))))).
Proof.
  unfold sample. simpl.
  destruct (np_amax (np_cumsum (_weights a))); reflexivity.
Qed.

Lemma index_raises {A} (l : list A) k e :
  index l k = Raise e -> e = IndexError.
Proof. unfold index. destruct (nth_error l k); congruence. Qed.

Lemma broadcast2_raises f x y e :
  broadcast2 f x y = Raise e -> e = ValueError.
Proof.
  unfold broadcast2. destruct (Nat.eqb _ _); [discriminate |].
  destruct x as [| a [| a' x]]; destruct y as [| b [| b' y]]; congruence.
Qed.

Lemma kernel_draw_raises a bw randnums i ii e :
  kernel_draw a bw randnums i ii = Raise e -> index_or_shape e.
Proof.
  unfold kernel_draw, index_or_shape.
  destruct (index (cells (_data a)) i) eqn:E1; simpl;
    [| intros [= <-]; left; eapply index_raises; eauto].
  destruct (index bw i) eqn:E2; simpl;
    [| intros [= <-]; left; eapply index_raises; eauto].
  destruct (index (cells randnums) ii) eqn:E3; simpl;
    [| intros [= <-]; left; eapply index_raises; eauto].
  destruct (broadcast2 F64.mul _ _) eqn:E4; simpl;
    [| intros [= <-]; right; eapply broadcast2_raises; eauto].
  intros H. right. eapply broadcast2_raises; eauto.
Qed.

Lemma set_row_raises points ii rhs e :
  set_row points ii rhs = Raise e -> index_or_shape e.
Proof.
  unfold set_row, index_or_shape.
  destruct (Nat.ltb ii (nrows points)); [| intros [= <-]; auto].
  destruct (Nat.eqb _ _); [discriminate |].
  destruct rhs as [| x [| y rhs]]; try discriminate; intros [= <-]; auto.
Qed.

Lemma sample_while_raises a bw randnums w i ts :
  forall points ii e,
    sample_while a bw randnums w i ts points ii = Raise e ->
    index_or_shape e.
Proof.
  induction ts as [| th ts IH]; intros points ii e; simpl.
  - intros [= <-]. left. reflexivity.
  - destruct (index w i) as [wi | e'] eqn:E1; simpl;
      [| intros [= <-]; left; eapply index_raises; eauto].
    destruct (F64.ltb th wi); [| discriminate].
    destruct (kernel_draw a bw randnums i ii) as [rhs | e'] eqn:E2; simpl;
      [| intros [= <-]; eapply kernel_draw_raises; eauto].
    destruct (set_row points ii rhs) as [p' | e'] eqn:E3; simpl;
      [| intros [= <-]; eapply set_row_raises; eauto].
    apply IH.
Qed.

Lemma sample_for_raises a bw randnums w kernels :
  forall ts points ii e,
    sample_for a bw randnums w kernels ts points ii = Raise e ->
    index_or_shape e.
Proof.
  induction kernels as [| i kernels IH]; intros ts points ii e; simpl;
    [discriminate |].
  destruct (sample_while a bw randnums w i ts points ii)
    as [[[p1 ii1] ts1] | e'] eqn:Hw; simpl.
  - apply IH.
  - intros [= <-]. eapply sample_while_raises; eauto.
Qed.

(** The two assertions of lines 74-75 never fail. *)
Lemma sample_with_assertions_hold a n randnums u :
  _n_features a = ncols (_data a) ->
  sample_with a n randnums u <> Raise AssertionError.
Proof.
  intros Hd. unfold sample_with.
  destruct (np_amax (np_cumsum (_weights a))) as [m | e] eqn:Em; simpl.
  - destruct (sample_for _ _ _ _ _ _ _ _) as [p1 | e] eqn:Hfor; simpl.
    + apply sample_for_frame in Hfor. destruct Hfor as (H1 & H2 & _).
      simpl in H1, H2. rewrite H1, H2, Hd, !Nat.eqb_refl. simpl.
      discriminate.
    + apply sample_for_raises in Hfor. destruct Hfor; subst; discriminate.
  - destruct (_weights a); simpl in Em; [| discriminate].
    injection Em as <-. discriminate.
Qed.

Lemma AKDE_init_default_weights data bw a :
  AKDE_init data None bw = Ok a ->
  exists x k, nrows data = S k /\ _n_kernels a = S k /\
              _weights a = repeat x (S k).
Proof.
  unfold AKDE_init, py_float_div_int. intros H.
  destruct (nrows data) as [| k] eqn:Hn; [discriminate |].
  change (Z.eqb (Z.of_nat (S k)) 0) with false in H. cbn [rbind] in H.
  destruct (select_bw data bw) as [b | e]; [cbn [rbind] in H | discriminate].
  destruct (KDEMultivariate _ _ b) as [kd | e]; [cbn [rbind] in H
                                                 | discriminate].
  injection H as <-. cbn [_n_kernels _weights].
  exists (F64.div F64.one (F64.of_Z (Z.of_nat (S k)))), k. auto.
Qed.

(** C10: [sample(0)] does not return an empty array: on every estimator
    built with the default weights it raises [IndexError] at [t[ii]]
    ([ii = 1], [len(t) = 1]).  For every [n], whatever [sample] returns
    has [n] rows of [d] entries, and the assertions of lines 74-75 never
    fail. *)
Theorem sample_zero_raises data bw a g :
  AKDE_init data None bw = Ok a ->
  fst (sample a 0 g) = Raise IndexError /\
  (forall n g', fst (sample a n g') <> Raise AssertionError) /\
  (forall n g' points,
      fst (sample a n g') = Ok points ->
      nrows points = n /\ ncols points = ncols data /\ wf_ndarray2 points).
Proof.
  intros H.
  destruct (AKDE_init_default_weights _ _ _ H) as (x & k & Hn & Hk & Hw).
  destruct (AKDE_init_inv _ _ _ _ H) as (b & _ & _ & _ & Hd & _ & Hf).
  assert (Hmax : exists m, np_amax (np_cumsum (_weights a)) = Ok m).
  { rewrite Hw. simpl. eauto. }
  destruct Hmax as [m Hm].
  split; [| split].
  - rewrite sample_unfold, Hm. cbn [rbind]. unfold sample_with.
    rewrite Hm, Hk. reflexivity.
  - intros n g'. rewrite sample_unfold, Hm. cbn [rbind].
    apply sample_with_assertions_hold. rewrite Hf, Hd. reflexivity.
  - intros n g' points. rewrite sample_unfold, Hm. cbn [rbind].
    intros Hs. apply sample_with_shape in Hs. rewrite Hf in Hs. exact Hs.
Qed.

(** C6: the walk starts at the second threshold ([ii = 1]): the first row
    of the returned array is never assigned.  For every estimator, every
    [n >= 1] and every draw, the first returned row is the zero row of
    [np.zeros], not a kernel center plus scaled noise, so at most [n - 1]
    rows are emitted for the [n] thresholds. *)
Theorem sample_first_row_never_drawn a n randnums u points :
  sample_with a (S n) randnums u = Ok points ->
  nth_error (cells points) 0 = Some (repeat F64.zero (_n_features a)).
Proof.
  intros H. apply sample_with_frame in H. destruct H as (_ & _ & _ & H0).
  rewrite H0. reflexivity.
Qed.

(** ** Properties of [entropy] *)

(** [np.any(probs[probs == 0.])]: the selected entries are the zeros, and
    zeros are false. *)
Lemma zero_mask_never_true (probs : vec) :
  np_any (mask_select (fun p => F64.eqb p F64.zero) probs) = false.
Proof.
  unfold np_any, mask_select.
  induction probs as [| p probs IH]; simpl; [reflexivity |].
  destruct (F64.eqb p F64.zero) eqn:E; [| exact IH].
  simpl. rewrite IH.
  destruct p as [s | s | | s m e]; try destruct s; try discriminate;
    reflexivity.
Qed.

Lemma entropy_of_probs a d probs :
  predict a d = Ok probs ->
  entropy a (Some d) = Ok (F64.opp (np_mean (map np_log probs))).
Proof.
  intros Hp. unfold entropy. rewrite Hp. cbn [rbind].
  rewrite zero_mask_never_true. reflexivity.
Qed.

(** C2: with [data] given, the test of line 103 is never true, so the
    [-np.inf] of line 104 is never returned on that path: [entropy]
    returns the negated mean of the log-densities also when a density is
    exactly zero. *)
Theorem entropy_zero_test_never_fires a d :
  entropy a (Some d)
  = rbind (predict a d)
      (fun probs => Ok (F64.opp (np_mean (map np_log probs)))).
Proof.
  destruct (predict a d) as [probs | e] eqn:Hp.
  - apply entropy_of_probs. exact Hp.
  - unfold entropy. rewrite Hp. reflexivity.
Qed.

(** With one evaluated point of density zero, a logarithm with
    [log 0 = -inf] and a mean that is exact on one point, [entropy]
    returns [+inf]. *)
Lemma entropy_single_zero_density a d :
  np_log F64.zero = F64.ninf ->
  np_mean [F64.ninf] = F64.ninf ->
  predict a d = Ok [F64.zero] ->
  entropy a (Some d) = Ok F64.pinf.
Proof.
  intros Hlog Hmean Hp. rewrite (entropy_of_probs a d _ Hp).
  simpl. rewrite Hlog, Hmean. reflexivity.
Qed.

(** The sibling path ([data] omitted) does detect a zero density that
    carries a nonzero weight. *)
Lemma entropy_own_data_detects_zero a probs :
  predict a (cells (_data a)) = Ok probs ->
  List.length probs = List.length (_weights a) ->
  np_any (weights_where_nonpositive (_weights a) probs) = true ->
  entropy a None = Ok F64.ninf.
Proof.
  intros Hp Hlen Hany. unfold entropy. rewrite Hp. cbn [rbind].
  rewrite Hlen, Nat.eqb_refl. cbn [rbind]. rewrite Hany. reflexivity.
Qed.

(** ** Properties of the Rule-of-Thumb selector *)

Lemma py2_minus_one_div (k : Z) : 0 < k -> -1 / k = -1.
Proof.
  intros Hk. symmetry. apply Z.div_unique with (r := k - 1); lia.
Qed.

Lemma rot_exponent_spec dim :
  py_int_div py (-1) (4 + Z.of_nat dim) = Ok (rot_exponent dim).
Proof.
  unfold py_int_div, rot_exponent.
  destruct (Z.eqb_spec (4 + Z.of_nat dim) 0) as [E | _]; [lia |].
  destruct py; [| reflexivity].
  rewrite py2_minus_one_div by lia. reflexivity.
Qed.

(** C9: what [_ksizeROT] returns.  The interquartile-range term is one
    scalar, [0.7413 * stats.iqr] of the whole flattened data matrix, used
    for every dimension; it is not the interquartile range of the
    dimension, and the fallback to the standard deviation is taken when
    this pooled value is zero.  The scale factor is [np.power] at the
    exponent [-1 / (4 + dim)] as the interpreter evaluates it. *)
Theorem ksizeROT_uses_pooled_iqr (X : ndarray2) :
  let q := F64.mul F64.c_0_7413 (stats_iqr (concat (cells X))) in
  ksizeROT X
  = rbind (np_power (Z.of_nat (nrows X)) (rot_exponent (ncols X)))
      (fun pw =>
         Ok (map (fun j =>
                    let s := np_std (column j (cells X)) in
                    F64.mul
                      (F64.mul F64.one
                         (np_minimum s (if F64.eqb q F64.zero then s else q)))
                      pw)
                 (seq 0 (ncols X)))).
Proof.
  intros q. unfold ksizeROT. rewrite rot_exponent_spec. cbn [rbind].
  destruct (np_power _ _) as [pw | e]; [| reflexivity]. cbn [rbind].
  rewrite map_map. reflexivity.
Qed.

(** On [rot_example] the first dimension gets the pooled term
    [0.7413 * 3.75], where its own interquartile range, 0, would give a
    term of 0. *)
Lemma ksizeROT_on_rot_example s1 pw :
  np_std (map F64.of_Z [0; 0; 0; 0; 10]) = F64.of_Z 4 ->
  np_std (map F64.of_Z [1; 2; 3; 4; 5]) = s1 ->
  stats_iqr (map F64.of_Z [0; 1; 0; 2; 0; 3; 0; 4; 10; 5])
  = three_and_three_quarters ->
  np_power 5 (rot_exponent 2) = Ok pw ->
  ksizeROT rot_example
  = Ok [F64.mul (F64.mul F64.one
                   (F64.mul F64.c_0_7413 three_and_three_quarters)) pw;
        F64.mul (F64.mul F64.one
                   (np_minimum s1
                      (F64.mul F64.c_0_7413 three_and_three_quarters))) pw]
  /\ np_minimum (F64.of_Z 4) (F64.mul F64.c_0_7413 F64.zero) = F64.zero
  /\ F64.eqb (F64.mul F64.c_0_7413 three_and_three_quarters) F64.zero
     = false.
Proof.
  intros Hs0 Hs1 Hq Hpw. split; [| split; vm_compute; reflexivity].
  unfold ksizeROT. rewrite rot_exponent_spec. cbn [rbind].
  change (concat (cells rot_example))
    with (map F64.of_Z [0; 1; 0; 2; 0; 3; 0; 4; 10; 5]).
  change (Z.of_nat (nrows rot_example)) with 5.
  change (ncols rot_example) with 2%nat.
  rewrite Hq, Hpw. cbn [rbind seq map].
  change (column 0 (cells rot_example))
    with (map F64.of_Z [0; 0; 0; 0; 10]).
  change (column 1 (cells rot_example))
    with (map F64.of_Z [1; 2; 3; 4; 5]).
  rewrite Hs0, Hs1.
  replace (F64.eqb (F64.mul F64.c_0_7413 three_and_three_quarters) F64.zero)
    with false by (vm_compute; reflexivity).
  replace (np_minimum (F64.of_Z 4)
             (F64.mul F64.c_0_7413 three_and_three_quarters))
    with (F64.mul F64.c_0_7413 three_and_three_quarters)
    by (vm_compute; reflexivity).
  reflexivity.
Qed.

(** ** Properties of [_sample] *)













(** ** Properties of [information_leakage] *)

Lemma check_sums_spec prob_indiv w :
  check_sums prob_indiv w
  = (Ok tt, mk_world (w_rng w) (w_log w ++ warnings_for prob_indiv)).
Proof.
  revert w. induction prob_indiv as [| prob_inst rest IH]; intros w.
  - simpl. unfold mret, warnings_for. simpl. rewrite app_nil_r.
    destruct w; reflexivity.
  - cbn [check_sums]. unfold mbind, warnings_for. cbn [map filter].
    destruct (F64.ltb (py_sum prob_inst) F64.c_0_99).
    + unfold logger. rewrite IH. cbn [w_rng w_log map].
      unfold warnings_for. rewrite <- app_assoc. reflexivity.
    + unfold mret. rewrite IH. reflexivity.
Qed.


Lemma leakage_try_never_none sample_size clusters w w' :
  leakage_try sample_size clusters w <> (Ok None, w').
Proof.
  unfold leakage_try, mbind, lift, mret.
  destruct (normalize_clusters clusters) as [cl | e]; [| discriminate].
  destruct (leakage_body sample_size cl w) as [[l | e] w1]; discriminate.
Qed.

(** C1: the clause [except not KeyboardInterrupt] catches nothing.
    [information_leakage] never returns [None]; an exception raised in
    the [try] block is not logged by the handler and leaves the function,
    as itself under Python 2 and as the [TypeError] of the clause under
    Python 3; so does the [IndexError] of [clusters[0]] for an empty list
    of clusters. *)
Theorem except_clause_catches_nothing sample_size clusters w :
  (forall w', information_leakage sample_size clusters w <> (Ok None, w')) /\
  (forall e w',
      leakage_try sample_size clusters w = (Raise e, w') ->
      information_leakage sample_size clusters w
      = (Raise (match py with Py2 => e | Py3 => TypeError end), w')) /\
  (forall v w',
      leakage_try sample_size clusters w = (Ok v, w') ->
      information_leakage sample_size clusters w = (Ok v, w')) /\
  information_leakage sample_size (PList []) w
  = (Raise (match py with Py2 => IndexError | Py3 => TypeError end), w).
Proof.
  unfold information_leakage, try_except, exception_matches, py_not_class.
  repeat split.
  - intros w'. pose proof (leakage_try_never_none sample_size clusters w) as Hn.
    destruct (leakage_try sample_size clusters w) as [[v | e] w1].
    + intros [= -> ->]. now apply (Hn w').
    + destruct py; discriminate.
  - intros e w' ->. destruct py; reflexivity.
  - intros v w' ->. reflexivity.
  - unfold leakage_try, mbind, lift. simpl. destruct py; reflexivity.
Qed.

(** ** Further properties of the estimator *)

Lemma Ok_inj {A} (x y : A) : Ok x = Ok y -> x = y.
Proof. congruence. Qed.

(** With no weights given, the constructor weighs the [n] kernels
    equally, by [1.0 / n] each; on a data matrix without rows it raises
    [ZeroDivisionError] ([1. / self._n_kernels]), whatever the bandwidth
    argument is and before any selector runs. *)
Theorem init_default_weights data bw :
  match nrows data with
  | O => AKDE_init data None bw = Raise ZeroDivisionError
  | S k =>
      forall a,
        AKDE_init data None bw = Ok a ->
        _weights a
        = repeat (F64.div F64.one (F64.of_Z (Z.of_nat (S k)))) (S k) /\
        List.length (_weights a) = _n_kernels a
  end.
Proof.
  unfold AKDE_init, py_float_div_int.
  destruct (nrows data) as [| k] eqn:Hn; [reflexivity |].
  change (Z.eqb (Z.of_nat (S k)) 0) with false. cbn [rbind].
  intros a H.
  destruct (select_bw data bw) as [b | e]; [cbn [rbind] in H | discriminate].
  destruct (KDEMultivariate _ _ b) as [kd | e];
    [cbn [rbind] in H | discriminate].
  apply Ok_inj in H. subst a. cbn [_weights _n_kernels].
  split; [reflexivity | apply repeat_length].
Qed.

(** An exception of the Hall selector is not recovered: the Rule-of-Thumb
    fallback is taken on NaN or infinite results only, and the constructor
    raises what the Hall selector raised. *)
Theorem hall_exception_not_recovered data e :
  ksizeHall data = Raise e ->
  select_bw data None = Raise e /\
  (forall w, AKDE_init data (Some w) None = Raise e) /\
  (nrows data <> 0%nat -> AKDE_init data None None = Raise e).
Proof.
  intros Hh.
  assert (Hsel : select_bw data None = Raise e)
    by (unfold select_bw; rewrite Hh; reflexivity).
  split; [exact Hsel |]. split.
  - intros w. unfold AKDE_init. cbn [rbind]. rewrite Hsel. reflexivity.
  - intros Hn. unfold AKDE_init, py_float_div_int.
    destruct (Z.eqb_spec (Z.of_nat (nrows data)) 0) as [E | _]; [lia |].
    cbn [rbind]. rewrite Hsel. reflexivity.
Qed.

Lemma update_nth_lookup {A} (k : nat) (x : A) (l : list A) :
  forall r y,
    nth_error (update_nth k x l) r = Some y ->
    (r = k /\ y = x) \/ nth_error l r = Some y.
Proof.
  revert k. induction l as [| z l IH]; intros k r y.
  - destruct k; simpl; auto.
  - destruct k as [| k]; destruct r as [| r]; simpl; auto.
    + intros [= <-]. auto.
    + intros H. apply IH in H. destruct H as [[-> ->] | H]; auto.
Qed.

Lemma set_row_lookup points ii rhs points' :
  set_row points ii rhs = Ok points' ->
  forall r row,
    nth_error (cells points') r = Some row ->
    (r = ii /\
     (row = rhs \/ exists x, rhs = [x] /\ row = repeat x (ncols points)))
    \/ nth_error (cells points) r = Some row.
Proof.
  unfold set_row. destruct (Nat.ltb ii (nrows points)); [| discriminate].
  destruct (Nat.eqb (List.length rhs) (ncols points)).
  - intros [= <-] r row H. cbn [cells] in H.
    apply update_nth_lookup in H. destruct H as [[-> ->] | H]; auto.
  - destruct rhs as [| x [| y rhs]]; try discriminate.
    intros [= <-] r row H. cbn [cells] in H.
    apply update_nth_lookup in H. destruct H as [[-> ->] | H]; eauto 6.
Qed.

Lemma sample_while_rows a randnums w i d ts :
  forall points ii points' ii' ts',
    sample_while a (repeat (_bw a) (_n_kernels a)) randnums w i ts points ii
    = Ok (points', ii', ts') ->
    ncols points = d ->
    (forall r row, nth_error (cells points) r = Some row ->
                   drawn_row a randnums d r row) ->
    ncols points' = d /\
    (forall r row, nth_error (cells points') r = Some row ->
                   drawn_row a randnums d r row).
Proof.
  induction ts as [| th ts IH]; intros points ii points' ii' ts'; simpl;
    [discriminate |].
  destruct (index w i) as [wi | e]; simpl; [| discriminate].
  destruct (F64.ltb th wi).
  - destruct (kernel_draw a _ randnums i ii) as [rhs | e] eqn:Hd; simpl;
      [| discriminate].
    destruct (set_row points ii rhs) as [p1 | e] eqn:Hset; simpl;
      [| discriminate].
    intros H Hcols Hrows. apply IH in H; [exact H | |].
    + unfold set_row in Hset.
      destruct (Nat.ltb ii (nrows points)); [| discriminate].
      destruct (Nat.eqb _ _);
        [| destruct rhs as [| x [| y rhs]]; try discriminate];
        injection Hset as <-; exact Hcols.
    + intros r row Hr.
      destruct (set_row_lookup _ _ _ _ Hset r row Hr) as [[-> Hrow] | Hold].
      * right. exists i, rhs. rewrite <- Hcols. auto.
      * apply Hrows. exact Hold.
  - intros [= <- <- <-] Hcols Hrows. auto.
Qed.

Lemma sample_for_rows a randnums w d kernels :
  forall ts points ii points',
    sample_for a (repeat (_bw a) (_n_kernels a)) randnums w kernels ts
               points ii = Ok points' ->
    ncols points = d ->
    (forall r row, nth_error (cells points) r = Some row ->
                   drawn_row a randnums d r row) ->
    forall r row, nth_error (cells points') r = Some row ->
                  drawn_row a randnums d r row.
Proof.
  induction kernels as [| i kernels IH]; intros ts points ii points'; simpl.
  - intros [= <-] _ Hrows. exact Hrows.
  - destruct (sample_while a _ randnums w i ts points ii)
      as [[[p1 ii1] ts1] | e] eqn:Hw; simpl; [| discriminate].
    intros H Hcols Hrows.
    destruct (sample_while_rows _ _ _ _ d _ _ _ _ _ _ Hw Hcols Hrows)
      as [Hc1 Hr1].
    eapply IH; eauto.
Qed.

(** Every row of the array [sample] returns is either a row [np.zeros]
    made and the walk never assigned, or the value
    [self._data[i, :] + bw[i, :] * randnums[r, :]] of some kernel [i] for
    the noise row [r] of the same index. *)
Theorem sample_rows_are_draws a n randnums u points :
  sample_with a n randnums u = Ok points ->
  forall r row,
    nth_error (cells points) r = Some row ->
    drawn_row a randnums (_n_features a) r row.
Proof.
  unfold sample_with.
  destruct (np_amax (np_cumsum (_weights a))) as [m | e]; cbn [rbind];
    [| discriminate].
  destruct (sample_for _ _ _ _ _ _ _ _) as [p1 | e] eqn:Hfor; cbn [rbind];
    [| discriminate].
  destruct (py_assert (Nat.eqb (nrows p1) n)); cbn [rbind]; [| discriminate].
  destruct (py_assert (Nat.eqb (ncols p1) (ncols (_data a)))); cbn [rbind];
    [| discriminate].
  intros [= <-]. eapply sample_for_rows; [exact Hfor | reflexivity |].
  intros r row Hr. left. cbn [np_zeros cells] in Hr.
  apply nth_error_In, repeat_spec in Hr. exact Hr.
Qed.

(** [sample] fails with an [IndexError] or a [ValueError] only. *)
Theorem sample_raises_index_or_shape a n g e :
  _n_features a = ncols (_data a) ->
  fst (sample a n g) = Raise e ->
  e = IndexError \/ e = ValueError.
Proof.
  intros Hd. rewrite sample_unfold.
  destruct (np_amax (np_cumsum (_weights a))) as [m | e'] eqn:Em;
    cbn [rbind].
  - unfold sample_with. rewrite Em. cbn [rbind].
    destruct (sample_for _ _ _ _ _ _ _ _) as [p1 | e'] eqn:Hfor; cbn [rbind].
    + apply sample_for_frame in Hfor. destruct Hfor as (H1 & H2 & _).
      cbn [np_zeros nrows ncols] in H1, H2.
      rewrite H1, H2, Hd, !Nat.eqb_refl. cbn [py_assert rbind]. discriminate.
    + intros [= <-]. apply sample_for_raises in Hfor. exact Hfor.
  - destruct (_weights a); simpl in Em; [| discriminate].
    injection Em as <-. intros [= <-]. auto.
Qed.

(** ** Further properties of the modeler *)

Lemma hstack_columns (rows : list vec) (x_f : vec) (c : nat) :
  List.length rows = List.length x_f ->
  Forall (fun r => List.length r = c) rows ->
  let rows' := map (fun rr : vec * vec => fst rr ++ snd rr)
                   (combine rows (map (fun v => [v]) x_f)) in
  List.length rows' = List.length rows /\
  Forall (fun r => List.length r = (c + 1)%nat) rows' /\
  (forall j, (j < c)%nat -> column j rows' = column j rows) /\
  column c rows' = x_f.
Proof.
  revert x_f. induction rows as [| r rows IH]; intros [| v x_f] Hlen Hrows;
    try discriminate; cbn [map combine fst snd List.length].
  - repeat split; auto.
  - inversion Hrows as [| ? ? Hr Hrest]; subst.
    injection Hlen as Hlen.
    destruct (IH x_f Hlen Hrest) as (H1 & H2 & H3 & H4).
    repeat split.
    + cbn [List.length]. f_equal. exact H1.
    + constructor; [| exact H2]. rewrite length_app. reflexivity.
    + intros j Hj. unfold column in *. cbn [map]. f_equal.
      * apply app_nth1. exact Hj.
      * apply H3. exact Hj.
    + unfold column in *. cbn [map]. f_equal; [| exact H4].
      rewrite app_nth2 by lia. rewrite Nat.sub_diag. reflexivity.
Qed.

Lemma column_of_singletons (x_f : vec) :
  column 0 (map (fun v => [v]) x_f) = x_f.
Proof.
  unfold column. rewrite map_map. simpl. apply map_id.
Qed.

(** The loop of [_make_kde] appends one column per feature. *)
Lemma build_X_columns site features :
  forall X0 done X',
    build_X site features (Some X0) = Ok X' ->
    wf_ndarray2 X0 ->
    ncols X0 = List.length done ->
    (forall j f, nth_error done j = Some f ->
                 feature_vector site f = Ok (column j (cells X0))) ->
    exists X1,
      X' = Some X1 /\ wf_ndarray2 X1 /\
      ncols X1 = List.length (done ++ features) /\
      (forall j f, nth_error (done ++ features) j = Some f ->
                   feature_vector site f = Ok (column j (cells X1))).
Proof.
  induction features as [| f features IH]; intros X0 done X'.
  - cbn [build_X]. intros [= <-] Hwf Hc Hcols. exists X0.
    rewrite app_nil_r. auto.
  - cbn [build_X]. fold (feature_vector site f).
    destruct (feature_vector site f) as [x_f | e] eqn:Hf; cbn [rbind];
      [| discriminate].
    unfold np_hstack. cbn [nrows ncols cells].
    destruct (Nat.eqb_spec (nrows X0) (List.length x_f)) as [Hn | _];
      cbn [rbind]; [| discriminate].
    intros H [Hlen Hrows] Hc Hcols.
    assert (Hlen' : List.length (cells X0) = List.length x_f) by congruence.
    destruct (hstack_columns (cells X0) x_f (ncols X0) Hlen' Hrows)
      as (H1 & H2 & H3 & H4).
    apply (IH _ (done ++ [f])) in H.
    + rewrite <- app_assoc in H. exact H.
    + split; cbn [nrows ncols cells];
        [etransitivity; [apply H1 | exact Hlen] | exact H2].
    + cbn [ncols]. rewrite length_app, Hc. reflexivity.
    + cbn [cells]. intros j g Hj.
      destruct (Nat.lt_ge_cases j (List.length done)) as [Hlt | Hge].
      * rewrite nth_error_app1 in Hj by exact Hlt.
        rewrite (Hcols j g Hj). f_equal. symmetry. apply H3.
        rewrite Hc. exact Hlt.
      * rewrite nth_error_app2 in Hj by exact Hge.
        destruct (j - List.length done)%nat as [| k] eqn:Hk;
          [| destruct k; discriminate].
        injection Hj as <-. assert (j = ncols X0) by lia. subst j.
        rewrite Hf. f_equal. symmetry. exact H4.
Qed.

(** Whenever [_make_kde] returns, the estimator's data matrix is well
    formed and has one column per feature, in feature order: column [j]
    is the observation vector the dataset gave for the [j]-th feature.  A
    bare feature index counts as a one-feature list. *)
Theorem make_kde_data_columns features site a :
  _make_kde features site = Ok a ->
  wf_ndarray2 (_data a) /\
  ncols (_data a) = List.length (feature_list features) /\
  _n_features a = List.length (feature_list features) /\
  _n_kernels a = nrows (_data a) /\
  (forall j f, nth_error (feature_list features) j = Some f ->
               feature_vector site f = Ok (column j (cells (_data a)))).
Proof.
  unfold _make_kde. fold (feature_list features).
  destruct (feature_list features) as [| f fs] eqn:Hfl.
  - cbn [build_X rbind]. discriminate.
  - cbn [build_X]. fold (feature_vector site f).
    destruct (feature_vector site f) as [x_f | e] eqn:Hf; cbn [rbind];
      [| discriminate].
    destruct (build_X site fs _) as [X' | e] eqn:Hb; cbn [rbind];
      [| discriminate].
    apply (build_X_columns site fs _ [f]) in Hb.
    + destruct Hb as (X1 & -> & Hwf & Hc & Hcols).
      intros Ha. apply AKDE_init_inv in Ha.
      destruct Ha as (b & _ & _ & _ & Hd & Hk & Hn).
      rewrite Hd, Hk, Hn. cbn [app] in Hc, Hcols. auto.
    + split; cbn [nrows ncols cells]; [apply length_map |].
      apply Forall_forall. intros r Hr. apply in_map_iff in Hr.
      destruct Hr as (v & <- & _). reflexivity.
    + reflexivity.
    + intros j g Hj. destruct j as [| j]; [| destruct j; discriminate].
      injection Hj as <-. cbn [cells]. rewrite column_of_singletons.
      exact Hf.
Qed.

(** [_make_kde] on an empty feature list fails on [KDE(None)]; on a bare
    feature index it does what it does on the one-element list. *)
Theorem make_kde_empty_and_bare site z :
  _make_kde (PList []) site = Raise AttributeError /\
  _make_kde (PInt z) site = _make_kde (PList [PInt z]) site.
Proof. split; reflexivity. Qed.

(** Normalising the clusters is idempotent: what lines 130-133 return is
    a non-empty list whose first element is a list, and such a value is
    returned unchanged.  The only failure is the [IndexError] of an empty
    list. *)
Theorem normalize_clusters_idempotent clusters :
  match normalize_clusters clusters with
  | Ok cl =>
      normalize_clusters cl = Ok cl /\
      exists first rest, cl = PList (PList first :: rest)
  | Raise e => clusters = PList [] /\ e = IndexError
  end.
Proof.
  destruct clusters as [z | [| [z | first] rest]]; cbn; eauto.
Qed.

Lemma mbind_ok {A B} (c : M A) (f : A -> M B) w b w' :
  mbind c f w = (Ok b, w') ->
  exists a w1, c w = (Ok a, w1) /\ f a w1 = (Ok b, w').
Proof.
  unfold mbind. destruct (c w) as [[a | e] w1]; [eauto | discriminate].
Qed.

Lemma leakage_of_probs_ok H_C prob_set w l w' :
  leakage_of_probs H_C prob_set w = (Ok l, w') ->
  exists H_CF pre,
    l = F64.sub H_C H_CF /\
    w_log w' = pre ++ [Debug_leakage l H_C H_CF].
Proof.
  unfold leakage_of_probs, mbind, lift.
  destruct (np_array_transpose prob_set) as [ps | e]; [| discriminate].
  rewrite check_sums_spec.
  destruct (py_float_div_int _ _) as [H_CF | e]; [| discriminate].
  unfold logger, mret. cbn [w_rng w_log]. intros [= <- <-].
  cbn [w_log]. eauto.
Qed.

(** Whenever [information_leakage] returns, it returns a number (never
    [None]), that number is [H(C) - H(C|f)] with [H(C)] the entropy of the
    uniform site priors, and the last record of the log is the debug
    record of exactly these three values. *)
Theorem returned_leakage_is_logged sample_size clusters w r w' :
  information_leakage sample_size clusters w = (Ok r, w') ->
  exists l H_CF pre,
    r = Some l /\
    l = F64.sub (entropy_of website_priors) H_CF /\
    w_log w' = pre ++ [Debug_leakage l (entropy_of website_priors) H_CF].
Proof.
  unfold information_leakage, try_except.
  destruct (leakage_try sample_size clusters w) as [[v | e] w1] eqn:Ht.
  - intros [= <- <-]. unfold leakage_try in Ht.
    apply mbind_ok in Ht. destruct Ht as (cl & w2 & _ & Ht).
    apply mbind_ok in Ht. destruct Ht as (l & w3 & Hb & Ht).
    unfold mret in Ht. injection Ht as <- <-.
    unfold leakage_body in Hb.
    do 7 (apply mbind_ok in Hb; destruct Hb as (? & ? & _ & Hb)).
    apply leakage_of_probs_ok in Hb. destruct Hb as (H_CF & pre & Hl & Hlog).
    exists l, H_CF, pre. auto.
  - unfold exception_matches, py_not_class. destruct py; discriminate.
Qed.

(** Lines 164-184 on degenerate input: with no site at all the stacking of
    line 164 fails with a [ValueError]; with sites but no pooled sample
    the mean of line 184 is [0/0] and raises [ZeroDivisionError].  Nothing
    is logged. *)
Theorem leakage_of_no_samples H_C prob_set w :
  Forall (fun probs => probs = []) prob_set ->
  leakage_of_probs H_C prob_set w
  = (Raise (match prob_set with
            | [] => ValueError
            | _ :: _ => ZeroDivisionError
            end), w).
Proof.
  intros Hall. unfold leakage_of_probs, mbind, lift.
  destruct prob_set as [| r0 rest]; [reflexivity |].
  inversion Hall as [| ? ? -> Hrest]; subst.
  assert (Ht : np_array_transpose ([] :: rest) = Ok []).
  { unfold np_array_transpose. cbn [List.length seq map].
    replace (forallb _ ([] :: rest)) with true; [reflexivity |].
    symmetry. apply forallb_forall. intros r [<- | Hr]; [reflexivity |].
    rewrite Forall_forall in Hrest. rewrite (Hrest r Hr). reflexivity. }
  rewrite Ht. reflexivity.
Qed.

Lemma sample_group_nothing web_priors sample_size pairs :
  Forall (fun sm : Z * AKDE =>
            exists num,
              site_allotment web_priors sample_size (fst sm) = Ok num /\
              num <= 0) pairs ->
  forall group w,
    sample_group pairs web_priors sample_size group w = (Ok group, w).
Proof.
  induction 1 as [| [site mkde] pairs (num & Hnum & Hle) _ IH];
    intros group w; cbn [sample_group]; [reflexivity |].
  unfold mbind at 1, lift. cbn [fst] in Hnum. rewrite Hnum.
  destruct (Z.ltb_spec 0 num) as [Hpos | _]; [lia |]. apply IH.
Qed.

(** When no site has a positive allotment (a budget of 0, or a budget too
    small for the priors), [_sample] returns one empty pool per cluster
    and leaves the generator and the log untouched: no model is asked for
    samples. *)
Theorem _sample_nothing_to_draw mkdes web_priors sample_size w :
  Forall (fun site =>
            exists num,
              site_allotment web_priors sample_size site = Ok num /\
              num <= 0) sites ->
  _sample mkdes web_priors sample_size w = (Ok (map (fun _ => []) mkdes), w).
Proof.
  intros Hs. unfold _sample.
  induction mkdes as [| site_mkdes mkdes IH]; cbn [mapM map];
    [reflexivity |].
  unfold mbind at 1. rewrite sample_group_nothing.
  - unfold mbind at 1. rewrite IH. reflexivity.
  - apply Forall_forall. intros [site mkde] Hin.
    apply in_combine_l in Hin. rewrite Forall_forall in Hs.
    apply Hs. exact Hin.
Qed.

(** The site identifiers index the list of priors: when the first site
    identifier is not an index of [web_priors], [_sample] raises
    [IndexError] before drawing anything. *)
Theorem _sample_site_not_an_index site rest mkde site_mkdes mkdes
    web_priors sample_size w :
  sites = site :: rest ->
  site < - Z.of_nat (List.length web_priors) \/
  Z.of_nat (List.length web_priors) <= site ->
  _sample ((mkde :: site_mkdes) :: mkdes) web_priors sample_size w
  = (Raise IndexError, w).
Proof.
  intros Hs Hout. unfold _sample. rewrite Hs. cbn [mapM combine sample_group].
  unfold mbind, lift, site_allotment, py_index.
  destruct (Z.leb_spec 0 site); destruct (Z.ltb_spec site
    (Z.of_nat (List.length web_priors)));
    destruct (Z.leb_spec (- Z.of_nat (List.length web_priors)) site);
    destruct (Z.ltb_spec site 0); cbn [andb rbind]; try lia; reflexivity.
Qed.

Lemma combine_firstn_length {A B} (l : list A) (l' : list B) :
  combine l (firstn (List.length l) l') = combine l l'.
Proof.
  revert l'. induction l as [| x l IH]; intros [| y l']; cbn; auto.
  now rewrite IH.
Qed.

(** Models beyond the number of sites are never sampled: [_sample] gives
    the same result when every group is cut to the number of sites. *)
Theorem _sample_ignores_models_without_site mkdes web_priors sample_size w :
  _sample (map (firstn (List.length sites)) mkdes) web_priors sample_size w
  = _sample mkdes web_priors sample_size w.
Proof.
  unfold _sample. revert w.
  induction mkdes as [| site_mkdes mkdes IH]; intros w; cbn [mapM map];
    [reflexivity |].
  rewrite combine_firstn_length. unfold mbind at 1 3.
  destruct (sample_group _ _ _ _ w) as [[pool | e] w1]; [| reflexivity].
  unfold mbind at 1 2. rewrite IH. reflexivity.
Qed.

(** A constant feature column (standard deviation 0) gets a zero
    bandwidth from the Rule-of-Thumb selector, whenever the pooled
    interquartile term is a non-negative number and the scale factor is
    finite. *)
Theorem ksizeROT_constant_column X h j pw :
  ksizeROT X = Ok h ->
  (j < ncols X)%nat ->
  np_std (column j (cells X)) = F64.zero ->
  F64.is_nan (F64.mul F64.c_0_7413 (stats_iqr (concat (cells X)))) = false ->
  F64.ltb (F64.mul F64.c_0_7413 (stats_iqr (concat (cells X)))) F64.zero
  = false ->
  np_power (Z.of_nat (nrows X)) (rot_exponent (ncols X)) = Ok pw ->
  F64.is_nan pw = false ->
  F64.is_inf pw = false ->
  exists b, nth_error h j = Some b /\ F64.eqb b F64.zero = true.
Proof.
  intros Hrot Hj Hstd Hnan Hneg Hpw Hpn Hpi.
  unfold ksizeROT in Hrot. rewrite rot_exponent_spec in Hrot.
  cbn [rbind] in Hrot. rewrite Hpw in Hrot. cbn [rbind] in Hrot.
  apply Ok_inj in Hrot. subst h. rewrite map_map.
  set (q := F64.mul F64.c_0_7413 (stats_iqr (concat (cells X)))) in *.
  eexists. split.
  - apply map_nth_error. rewrite nth_error_nth' with (d := 0%nat)
      by (rewrite length_seq; exact Hj).
    rewrite seq_nth by exact Hj. reflexivity.
  - cbv beta. change (0 + j)%nat with j. rewrite Hstd.
    assert (Hmin : np_minimum F64.zero
                     (if F64.eqb q F64.zero then F64.zero else q)
                   = F64.zero).
    { destruct q as [s | s | | s m e]; try destruct s; try discriminate;
        reflexivity. }
    rewrite Hmin.
    destruct pw as [s | s | | s m e]; try discriminate; reflexivity.
Qed.

(** Which entries [self._weights[probs <= 0.]] selects, and when
    [np.any] of them is true. *)
Lemma weights_where_nonpositive_any w probs :
  np_any (weights_where_nonpositive w probs) = true <->
  exists i p x,
    nth_error probs i = Some p /\ nth_error w i = Some x /\
    F64.leb p F64.zero = true /\ F64.truthy x = true.
Proof.
  unfold np_any. revert probs.
  induction w as [| x w IH]; intros [| p probs];
    cbn [weights_where_nonpositive existsb].
  - split; [discriminate | intros ([| i] & q & y & _ & H & _); discriminate].
  - split; [discriminate | intros ([| i] & q & y & _ & H & _); discriminate].
  - split; [discriminate | intros ([| i] & q & y & H & _); discriminate].
  - destruct (F64.leb p F64.zero) eqn:Hp; cbn [existsb].
    + rewrite orb_true_iff, IH. split.
      * intros [Hx | (i & q & y & H1 & H2 & H3 & H4)].
        -- exists 0%nat, p, x. auto.
        -- exists (S i), q, y. auto.
      * intros ([| i] & q & y & H1 & H2 & H3 & H4); cbn in H1, H2.
        -- left. congruence.
        -- right. eauto 8.
    + rewrite IH. split.
      * intros (i & q & y & H1 & H2 & H3 & H4). exists (S i), q, y. auto.
      * intros ([| i] & q & y & H1 & H2 & H3 & H4); cbn in H1, H2.
        -- congruence.
        -- eauto 8.
Qed.

Lemma zero_to_one_nonzero p : F64.eqb (zero_to_one p) F64.zero = false.
Proof.
  unfold zero_to_one. destruct (F64.eqb p F64.zero) eqn:E;
    [reflexivity | exact E].
Qed.

(** [entropy()] with the data omitted (lines 108-113): it returns
    [-np.inf] as soon as one observation whose density is not positive
    carries a weight that is not zero (a NaN weight counts); otherwise
    every non-positive density belongs to a kernel of weight zero, the
    result is [-np.dot(np.log(probs), weights)] with the zero densities
    replaced by 1, and the logarithm is never taken at zero. *)
Theorem entropy_own_data_zero_density a probs :
  predict a (cells (_data a)) = Ok probs ->
  List.length probs = List.length (_weights a) ->
  ((exists i p x,
       nth_error probs i = Some p /\ nth_error (_weights a) i = Some x /\
       F64.leb p F64.zero = true /\ F64.truthy x = true) ->
   entropy a None = Ok F64.ninf) /\
  ((forall i p x,
       nth_error probs i = Some p -> nth_error (_weights a) i = Some x ->
       F64.leb p F64.zero = true -> F64.truthy x = false) ->
   entropy a None
   = Ok (F64.opp (np_dot (map np_log (map zero_to_one probs)) (_weights a)))
   /\ Forall (fun q => F64.eqb q F64.zero = false) (map zero_to_one probs)).
Proof.
  intros Hp Hlen. unfold entropy. rewrite Hp. cbn [rbind].
  rewrite Hlen, Nat.eqb_refl. cbn [rbind].
  pose proof (weights_where_nonpositive_any (_weights a) probs) as Hany.
  split.
  - intros Hex. apply Hany in Hex. rewrite Hex. reflexivity.
  - intros Hall.
    destruct (np_any (weights_where_nonpositive (_weights a) probs)) eqn:E.
    + destruct (proj1 Hany eq_refl) as (i & p & x & H1 & H2 & H3 & H4).
      rewrite (Hall i p x H1 H2 H3) in H4. discriminate.
    + split; [reflexivity |]. apply Forall_forall. intros q Hq.
      apply in_map_iff in Hq. destruct Hq as (p & <- & _).
      apply zero_to_one_nonzero.
Qed.

End Estimator.

(** ** Concrete runs

    A two-kernel, one-feature estimator with centers 5 and 6.  The external
    functions are replaced by stand-ins: a [KDEMultivariate] object is the
    bandwidth it was built with, the Hall selector returns a NaN, the
    statistics are constant. *)

Module Scenario.

Definition half : float := F64.div F64.one (F64.of_Z 2).
Definition quarter : float := F64.div F64.one (F64.of_Z 4).
Definition three_quarters : float := F64.div (F64.of_Z 3) (F64.of_Z 4).
Definition five : float := F64.of_Z 5.
Definition six : float := F64.of_Z 6.

Definition kde_t : Type := vec.

Definition KDEMultivariate (data : ndarray2) (var_type : string) (bw : vec)
  : result kde_t := Ok bw.

Definition kde_pdf (k : kde_t) (pts : list vec) : result vec :=
  Ok (map (fun _ => F64.zero) pts).

Definition np_std (v : vec) : float := F64.one.
Definition stats_iqr (v : vec) : float := F64.one.
Definition np_power (n : Z) (e : pynum) : result float := Ok half.
Definition ksizeHall (data : ndarray2) : result vec := Ok [F64.nan].

Definition data : ndarray2 := mk_ndarray2 2 1 [[five]; [six]].

(** [AKDE(data, bw=np.array([0.]))] *)
Definition fit_zero_bw : result (AKDE kde_t) :=
  AKDE_init Py3 kde_t KDEMultivariate np_std stats_iqr np_power ksizeHall
            data None (Some [F64.zero]).

Definition akde_zero_bw : AKDE kde_t :=
  mk_AKDE kde_t data 2 1 [half; half] [F64.c_0_001] [F64.zero].

(** [AKDE(data)] *)
Definition fit_auto_bw : result (AKDE kde_t) :=
  AKDE_init Py3 kde_t KDEMultivariate np_std stats_iqr np_power ksizeHall
            data None None.

(** [AKDE(data, bw=np.array([1.]))] *)
Definition akde_unit_bw : AKDE kde_t :=
  mk_AKDE kde_t data 2 1 [half; half] [F64.one] [F64.one].

(** A generator whose normal draws are all 0.25 and whose uniform draws
    alternate between 0.25 and 0.75. *)
Definition gen : rng :=
  mk_rng (fun _ => quarter)
         (fun k => if Nat.even k then quarter else three_quarters)
         0 0.

Definition start : world := mk_world gen [].

End Scenario.

(** The array [sample(2)] returns in the scenario, and the pool of two
    such draws. *)
Definition two_draws : ndarray2 :=
  mk_ndarray2 2 1 [[F64.zero]; [F64.add Scenario.six Scenario.quarter]].


(** ** Runs of the scenario *)

Lemma fit_zero_bw_runs : Scenario.fit_zero_bw = Ok Scenario.akde_zero_bw.
Proof. reflexivity. Qed.


Lemma kde_fit_with_unsubstituted_bw_witness :
  Scenario.KDEMultivariate Scenario.data (var_vector 1) [F64.zero]
  = Ok (_kde Scenario.kde_t Scenario.akde_zero_bw) /\
  _bw Scenario.kde_t Scenario.akde_zero_bw <> [F64.zero].
Proof.
  pose proof (kde_fit_with_unsubstituted_bw Py3 Scenario.kde_t
                Scenario.KDEMultivariate Scenario.kde_pdf Scenario.np_std
                Scenario.stats_iqr Scenario.np_power Scenario.ksizeHall
                Scenario.data None (Some [F64.zero])
                Scenario.akde_zero_bw [F64.zero] eq_refl eq_refl
                (Exists_cons_hd _ F64.zero [] eq_refl)) as H.
  split; [exact (proj1 H) | exact (proj1 (proj2 (proj2 (proj2 H))))].
Defined.

Lemma hall_then_rule_of_thumb_witness :
  select_bw Py3 Scenario.np_std Scenario.stats_iqr Scenario.np_power
            Scenario.ksizeHall Scenario.data None
  = ksizeROT Py3 Scenario.np_std Scenario.stats_iqr Scenario.np_power
             Scenario.data.
Proof.
  exact (proj1 (hall_then_rule_of_thumb Py3 Scenario.kde_t
                  Scenario.KDEMultivariate Scenario.np_std
                  Scenario.stats_iqr Scenario.np_power Scenario.ksizeHall
                  Scenario.data [F64.nan] eq_refl)).
Defined.

(** [sample(2)] with thresholds 0.25 and 0.75: one row is drawn, from the
    second kernel; the first row is left at zero. *)
Lemma sample_two_runs :
  fst (sample Scenario.kde_t Scenario.akde_unit_bw 2 Scenario.gen)
  = Ok two_draws.
Proof. vm_compute. reflexivity. Qed.

Lemma sample_first_row_never_drawn_witness :
  sample_with Scenario.kde_t Scenario.akde_unit_bw 2
              (mk_ndarray2 2 1 [[Scenario.half]; [Scenario.quarter]])
              [Scenario.three_quarters; Scenario.quarter]
  = Ok two_draws /\
  nth_error (cells two_draws) 0 = Some [F64.zero].
Proof.
  assert (H : sample_with Scenario.kde_t Scenario.akde_unit_bw 2
                (mk_ndarray2 2 1 [[Scenario.half]; [Scenario.quarter]])
                [Scenario.three_quarters; Scenario.quarter]
              = Ok two_draws) by (vm_compute; reflexivity).
  split; [exact H |].
  exact (sample_first_row_never_drawn Scenario.kde_t Scenario.akde_unit_bw
           1 _ _ two_draws H).
Defined.

(** In that run the first returned row is neither center plus the scaled
    noise of its row: C6 fails on it. *)
Lemma sample_first_row_is_no_draw :
  exists points,
    sample_with Scenario.kde_t Scenario.akde_unit_bw 2
                (mk_ndarray2 2 1 [[Scenario.half]; [Scenario.quarter]])
                [Scenario.three_quarters; Scenario.quarter]
    = Ok points /\
    forall center, In center (cells Scenario.data) ->
      nth_error (cells points) 0
      <> Some (zip_with F64.add center
                 (zip_with F64.mul [F64.one] [Scenario.half])).
Proof.
  exists two_draws. split; [vm_compute; reflexivity |].
  intros center [<- | [<- | []]]; vm_compute; discriminate.
Qed.

Lemma sample_zero_raises_witness :
  fst (sample Scenario.kde_t Scenario.akde_unit_bw 0 Scenario.gen)
  = Raise IndexError.
Proof.
  assert (H : AKDE_init Py3 Scenario.kde_t Scenario.KDEMultivariate
                Scenario.np_std Scenario.stats_iqr Scenario.np_power
                Scenario.ksizeHall Scenario.data None (Some [F64.one])
              = Ok Scenario.akde_unit_bw) by (vm_compute; reflexivity).
  exact (proj1 (sample_zero_raises Py3 Scenario.kde_t
                  Scenario.KDEMultivariate Scenario.np_std
                  Scenario.stats_iqr Scenario.np_power Scenario.ksizeHall
                  Scenario.data (Some [F64.one]) Scenario.akde_unit_bw
                  Scenario.gen H)).
Defined.




(** ** The orchestrator: [info_leak.individual_measure]

    The serial path ([pool is None]).  [fingerprinter] is any callable on
    a feature; the state [T] is whatever it reads and changes.  The
    function's own effects are recorded as traces: the [logger.info]
    records and the lines appended to the checkpoint file.  A checkpoint
    is given by the leakages read back from its file. *)

Inductive info_record : Type :=
| Info_begin
| Info_progress (done : nat) (size : Z).

Record run (T : Type) : Type := mk_run {
  r_state : T;
  r_info : list info_record;
  r_written : list (option float)
}.

Arguments mk_run {T} _ _ _.
Arguments r_state {T} _.
Arguments r_info {T} _.
Arguments r_written {T} _.

Definition c_0_05 : float := S754_finite false 7205759403792794 (-57).

(** [a % b] on Python [int]s. *)
Definition py_mod (a b : Z) : result Z :=
  if Z.eqb b 0 then Raise ZeroDivisionError else Ok (a mod b).

(** [int(size*0.05)] *)
Definition progress_interval (size : Z) : result Z :=
  rbind (py_int_mul_float size c_0_05) py_int.

Section Orchestrator.

Variable py : pyver.
Variable T : Type.

(** [fingerprinter(feature)] and [fingerprinter.data.features]. *)
Variable fingerprinter : pyobj -> T -> result (option float) * T.
Variable features : list pyobj.

(** The body of the loop of lines 50-56 for one [leakage]. *)
Definition record_leakage (checkpoint : bool) (size : Z)
    (leakage : option float) (leakage_indiv : list (option float))
    (r : run T) : result (list (option float)) * run T :=
  match rbind (progress_interval size)
              (py_mod (Z.of_nat (List.length leakage_indiv))) with
  | Raise e => (Raise e, r)
  | Ok m =>
      let info := if Z.eqb m 0
                  then r_info r
                       ++ [Info_progress (List.length leakage_indiv) size]
                  else r_info r in
      let written := if checkpoint then r_written r ++ [leakage]
                     else r_written r in
      (Ok (leakage_indiv ++ [leakage]), mk_run (r_state r) info written)
  end.

(** [map(fingerprinter, features)] in Python 2: a list, built at once. *)
Fixpoint call_all (fs : list pyobj) (t : T)
  : result (list (option float)) * T :=
  match fs with
  | [] => (Ok [], t)
  | f :: fs' =>
      match fingerprinter f t with
      | (Raise e, t1) => (Raise e, t1)
      | (Ok v, t1) =>
          match call_all fs' t1 with
          | (Raise e, t2) => (Raise e, t2)
          | (Ok vs, t2) => (Ok (v :: vs), t2)
          end
      end
  end.

(** The loop over a list of results. *)
Fixpoint loop_values (checkpoint : bool) (size : Z)
    (values : list (option float)) (leakage_indiv : list (option float))
    (r : run T) : result (list (option float)) * run T :=
  match values with
  | [] => (Ok leakage_indiv, r)
  | leakage :: values' =>
      match record_leakage checkpoint size leakage leakage_indiv r with
      | (Raise e, r1) => (Raise e, r1)
      | (Ok l1, r1) => loop_values checkpoint size values' l1 r1
      end
  end.

(** The loop over the iterator [map(fingerprinter, features)] of
    Python 3: each result is computed when the loop asks for it. *)
Fixpoint loop_lazy (checkpoint : bool) (size : Z) (fs : list pyobj)
    (leakage_indiv : list (option float)) (r : run T)
  : result (list (option float)) * run T :=
  match fs with
  | [] => (Ok leakage_indiv, r)
  | f :: fs' =>
      match fingerprinter f (r_state r) with
      | (Raise e, t1) => (Raise e, mk_run t1 (r_info r) (r_written r))
      | (Ok leakage, t1) =>
          match record_leakage checkpoint size leakage leakage_indiv
                               (mk_run t1 (r_info r) (r_written r)) with
          | (Raise e, r1) => (Raise e, r1)
          | (Ok l1, r1) => loop_lazy checkpoint size fs' l1 r1
          end
      end
  end.

(** The leakages already known and the features still to measure
    (lines 25-39). *)
Definition past_leakages (checkpoint : option (list float))
  : list (option float) :=
  match checkpoint with
  | Some past_leaks => map Some past_leaks
  | None => []
  end.

Definition remaining_features (checkpoint : option (list float))
  : list pyobj :=
  match checkpoint with
  | Some past_leaks => skipn (List.length past_leaks) features
  | None => features
  end.

Definition has_checkpoint (checkpoint : option (list float)) : bool :=
  match checkpoint with Some _ => true | None => false end.

(** [individual_measure(fingerprinter, None, checkpoint)] *)
Definition individual_measure (checkpoint : option (list float))
    (r : run T) : result (list (option float)) * run T :=
  let leakage_indiv := past_leakages checkpoint in
  let todo := remaining_features checkpoint in
  let size := Z.of_nat (List.length features) in
  match py with
  | Py2 =>
      match call_all todo (r_state r) with
      | (Raise e, t1) => (Raise e, mk_run t1 (r_info r) (r_written r))
      | (Ok values, t1) =>
          loop_values (has_checkpoint checkpoint) size values leakage_indiv
                      (mk_run t1 (r_info r ++ [Info_begin]) (r_written r))
      end
  | Py3 =>
      loop_lazy (has_checkpoint checkpoint) size todo leakage_indiv
                (mk_run (r_state r) (r_info r ++ [Info_begin]) (r_written r))
  end.

(** *** Properties of [individual_measure] *)

#[local] Set Warnings "-inexact-float".

Lemma c_0_05_literal : Prim2SF 0.05%float = c_0_05.
Proof. reflexivity. Qed.

Lemma progress_interval_below_20 (n : nat) :
  (n < 20)%nat -> progress_interval (Z.of_nat n) = Ok 0.
Proof.
  intros Hn.
  do 20 (destruct n as [| n]; [vm_compute; reflexivity |]). lia.
Qed.

Lemma record_leakage_zero_interval checkpoint size leakage leakage_indiv r :
  progress_interval size = Ok 0 ->
  record_leakage checkpoint size leakage leakage_indiv r
  = (Raise ZeroDivisionError, r).
Proof. intros H. unfold record_leakage. rewrite H. reflexivity. Qed.

Lemma call_all_total fs :
  (forall f t, exists v t', fingerprinter f t = (Ok v, t')) ->
  forall t, exists vs t',
    call_all fs t = (Ok vs, t') /\ List.length vs = List.length fs.
Proof.
  intros Htot. induction fs as [| f fs IH]; intros t; cbn [call_all].
  - eauto.
  - destruct (Htot f t) as (v & t1 & ->).
    destruct (IH t1) as (vs & t2 & -> & Hlen).
    exists (v :: vs), t2. cbn [List.length]. auto.
Qed.

(** With fewer than 20 features, [int(size*0.05)] is 0: as soon as one
    feature remains to be measured and the fingerprinter returns, the
    progress test [len(leakage_indiv) % 0] raises [ZeroDivisionError];
    nothing is returned and nothing is written to the checkpoint. *)
Theorem individual_measure_few_features checkpoint r :
  (List.length features < 20)%nat ->
  remaining_features checkpoint <> [] ->
  (forall f t, exists v t', fingerprinter f t = (Ok v, t')) ->
  exists r',
    individual_measure checkpoint r = (Raise ZeroDivisionError, r') /\
    r_written r' = r_written r.
Proof.
  intros Hsize Htodo Htot. unfold individual_measure.
  pose proof (progress_interval_below_20 _ Hsize) as Hint.
  destruct py.
  - destruct (call_all_total (remaining_features checkpoint) Htot (r_state r))
      as (vs & t1 & -> & Hlen).
    destruct vs as [| v vs].
    + destruct (remaining_features checkpoint); [congruence | discriminate].
    + cbn [loop_values]. rewrite record_leakage_zero_interval by exact Hint.
      eauto.
  - destruct (remaining_features checkpoint) as [| f fs]; [congruence |].
    cbn [loop_lazy r_state]. destruct (Htot f (r_state r)) as (v & t1 & ->).
    rewrite record_leakage_zero_interval by exact Hint. eauto.
Qed.





(** An exception of the fingerprinter is not caught: it leaves
    [individual_measure], and no result of the run is returned. *)
Theorem individual_measure_propagates checkpoint r f fs e t1 :
  remaining_features checkpoint = f :: fs ->
  fingerprinter f (r_state r) = (Raise e, t1) ->
  exists r', individual_measure checkpoint r = (Raise e, r') /\
             r_written r' = r_written r.
Proof.
  intros Htodo Hf. unfold individual_measure. rewrite Htodo.
  destruct py; cbn [call_all loop_lazy r_state]; rewrite Hf; eauto.
Qed.

End Orchestrator.

(** ** Concrete runs of the modeler and of the orchestrator

    Two sites, 0 and 1, with two observations each.  The stand-ins of
    [Scenario] are kept; the density stand-in is constant 1, and
    [math.log(x, 2)] is replaced by the constant -1, its value at the
    only argument of the run, 0.5. *)

Module Dataset.

Definition sites : list Z := [0; 1].

Definition get_site (c : Z) (feature : pyobj) : result vec :=
  if Z.eqb c 0 then Ok [Scenario.five; Scenario.six]
  else Ok [F64.of_Z 7; F64.of_Z 8].

Definition get_feature (feature : pyobj) : result vec :=
  Ok [Scenario.five; Scenario.six; F64.of_Z 7; F64.of_Z 8].

Definition kde_pdf (k : Scenario.kde_t) (pts : list vec) : result vec :=
  Ok (map (fun _ => F64.one) pts).

Definition math_log2 (x : float) : float := F64.opp F64.one.

(** [_make_kde([0, 1], 0)] *)
Definition make_two_features : result (AKDE Scenario.kde_t) :=
  _make_kde Py3 Scenario.kde_t Scenario.KDEMultivariate Scenario.np_std
            Scenario.stats_iqr Scenario.np_power Scenario.ksizeHall
            get_site get_feature (PList [PInt 0; PInt 1]) (Some 0).

(** [WebsiteFingerprintModeler(data, sample_size=4).information_leakage(0)] *)
Definition leakage_run : result (option float) * world :=
  information_leakage Py3 Scenario.kde_t Scenario.KDEMultivariate kde_pdf
                      Scenario.np_std Scenario.stats_iqr Scenario.np_power
                      Scenario.ksizeHall sites get_site get_feature
                      math_log2 4 (PInt 0) Scenario.start.

(** A Hall selector that fails, and statistics of a constant column. *)
Definition failing_hall (data : ndarray2) : result vec := Raise ValueError.
Definition zero_std (v : vec) : float := F64.zero.

(** A fingerprinter that measures 1.0 for every feature, and one that
    fails. *)
Definition constant_fingerprinter (f : pyobj) (t : unit)
  : result (option float) * unit := (Ok (Some F64.one), t).

Definition failing_fingerprinter (f : pyobj) (t : unit)
  : result (option float) * unit := (Raise ValueError, t).

Definition fresh : run unit := mk_run tt [] [].

End Dataset.

Lemma hall_exception_not_recovered_witness :
  select_bw Py3 Scenario.np_std Scenario.stats_iqr Scenario.np_power
            Dataset.failing_hall Scenario.data None
  = Raise ValueError.
Proof.
  exact (proj1 (hall_exception_not_recovered Py3 Scenario.kde_t
                  Scenario.KDEMultivariate Scenario.np_std
                  Scenario.stats_iqr Scenario.np_power Dataset.failing_hall
                  Scenario.data ValueError eq_refl)).
Defined.

Lemma sample_rows_are_draws_witness :
  drawn_row Scenario.kde_t Scenario.akde_unit_bw
            (mk_ndarray2 2 1 [[Scenario.half]; [Scenario.quarter]]) 1 1
            [F64.add Scenario.six Scenario.quarter].
Proof.
  assert (H : sample_with Scenario.kde_t Scenario.akde_unit_bw 2
                (mk_ndarray2 2 1 [[Scenario.half]; [Scenario.quarter]])
                [Scenario.three_quarters; Scenario.quarter]
              = Ok two_draws) by (vm_compute; reflexivity).
  exact (sample_rows_are_draws Scenario.kde_t Scenario.akde_unit_bw 2 _ _
           two_draws H 1%nat _ eq_refl).
Defined.

Lemma sample_raises_index_or_shape_witness :
  IndexError = IndexError \/ IndexError = ValueError.
Proof.
  assert (H : fst (sample Scenario.kde_t Scenario.akde_unit_bw 0
                          Scenario.gen) = Raise IndexError)
    by (vm_compute; reflexivity).
  exact (sample_raises_index_or_shape Scenario.kde_t Scenario.akde_unit_bw
           0 Scenario.gen IndexError eq_refl H).
Defined.

Lemma make_kde_data_columns_witness :
  exists a,
    Dataset.make_two_features = Ok a /\
    ncols (_data Scenario.kde_t a) = 2%nat.
Proof.
  eexists. split; [vm_compute; reflexivity |].
  exact (proj1 (proj2 (make_kde_data_columns Py3 Scenario.kde_t
                         Scenario.KDEMultivariate Scenario.np_std
                         Scenario.stats_iqr Scenario.np_power
                         Scenario.ksizeHall Dataset.get_site
                         Dataset.get_feature (PList [PInt 0; PInt 1])
                         (Some 0) _ eq_refl))).
Defined.

Lemma returned_leakage_is_logged_witness :
  exists r w',
    Dataset.leakage_run = (Ok r, w') /\
    exists l H_CF pre,
      r = Some l /\
      l = F64.sub (entropy_of Dataset.math_log2
                              (website_priors Dataset.sites)) H_CF /\
      w_log w'
      = pre ++ [Debug_leakage l
                  (entropy_of Dataset.math_log2
                              (website_priors Dataset.sites)) H_CF].
Proof.
  eexists. eexists. split; [vm_compute; reflexivity |].
  apply (returned_leakage_is_logged Py3 Scenario.kde_t
           Scenario.KDEMultivariate Dataset.kde_pdf Scenario.np_std
           Scenario.stats_iqr Scenario.np_power Scenario.ksizeHall
           Dataset.sites Dataset.get_site Dataset.get_feature
           Dataset.math_log2 4 (PInt 0) Scenario.start).
  vm_compute. reflexivity.
Defined.

Lemma leakage_of_no_samples_witness :
  leakage_of_probs Dataset.sites Dataset.math_log2 F64.one [[]; []]
                   Scenario.start
  = (Raise ZeroDivisionError, Scenario.start).
Proof.
  apply (leakage_of_no_samples Dataset.sites Dataset.math_log2 F64.one
           [[]; []] Scenario.start).
  repeat constructor.
Defined.

(** A budget of 0 with priors 0.5, 0.5. *)
Lemma _sample_nothing_to_draw_witness :
  _sample Scenario.kde_t Dataset.sites
          [[Scenario.akde_unit_bw; Scenario.akde_unit_bw]]
          [Scenario.half; Scenario.half] 0 Scenario.start
  = (Ok [[]], Scenario.start).
Proof.
  apply (_sample_nothing_to_draw Scenario.kde_t Dataset.sites
           [[Scenario.akde_unit_bw; Scenario.akde_unit_bw]]
           [Scenario.half; Scenario.half] 0 Scenario.start).
  repeat constructor; exists 0; split; try (vm_compute; reflexivity); lia.
Defined.

Lemma _sample_site_not_an_index_witness :
  _sample Scenario.kde_t [5] [[Scenario.akde_unit_bw]] [Scenario.half] 4
          Scenario.start
  = (Raise IndexError, Scenario.start).
Proof.
  apply (_sample_site_not_an_index Scenario.kde_t [5] 5 []
           Scenario.akde_unit_bw [] [] [Scenario.half] 4 Scenario.start
           eq_refl).
  right. cbn. lia.
Defined.

Lemma ksizeROT_constant_column_witness :
  exists b,
    nth_error [F64.zero] 0 = Some b /\ F64.eqb b F64.zero = true.
Proof.
  apply (ksizeROT_constant_column Py3 Dataset.zero_std Scenario.stats_iqr
           Scenario.np_power Scenario.data [F64.zero] 0 Scenario.half);
    vm_compute; reflexivity.
Defined.

Lemma individual_measure_few_features_witness :
  exists r',
    individual_measure Py3 unit Dataset.constant_fingerprinter
                       [PInt 0; PInt 1] None Dataset.fresh
    = (Raise ZeroDivisionError, r') /\
    r_written r' = r_written Dataset.fresh.
Proof.
  apply (individual_measure_few_features Py3 unit
           Dataset.constant_fingerprinter [PInt 0; PInt 1] None
           Dataset.fresh).
  - cbn. lia.
  - discriminate.
  - intros f t. exists (Some F64.one), t. reflexivity.
Defined.



Lemma individual_measure_propagates_witness :
  exists r',
    individual_measure Py2 unit Dataset.failing_fingerprinter
                       (repeat (PInt 0) 20) None Dataset.fresh
    = (Raise ValueError, r') /\
    r_written r' = r_written Dataset.fresh.
Proof.
  apply (individual_measure_propagates Py2 unit
           Dataset.failing_fingerprinter (repeat (PInt 0) 20) None
           Dataset.fresh (PInt 0) (repeat (PInt 0) 19) ValueError tt);
    reflexivity.
Defined.

(** Two rows: both kernels weigh one half. *)
Lemma init_default_weights_witness :
  Scenario.fit_zero_bw = Ok Scenario.akde_zero_bw /\
  _weights Scenario.kde_t Scenario.akde_zero_bw
  = [Scenario.half; Scenario.half].
Proof.
  split; [reflexivity |].
  exact (proj1 (init_default_weights Py3 Scenario.kde_t
                  Scenario.KDEMultivariate Scenario.np_std
                  Scenario.stats_iqr Scenario.np_power Scenario.ksizeHall
                  Scenario.data (Some [F64.zero])
                  Scenario.akde_zero_bw eq_refl)).
Defined.

(** Both densities of the scenario are zero and both weights one half. *)
Lemma entropy_own_data_zero_density_witness :
  entropy Scenario.kde_t Scenario.kde_pdf (fun x => x) (fun _ => F64.zero)
          (fun _ _ => F64.zero) Scenario.akde_zero_bw None
  = Ok F64.ninf.
Proof.
  apply (proj1 (entropy_own_data_zero_density Scenario.kde_t
                  Scenario.kde_pdf (fun x => x) (fun _ => F64.zero)
                  (fun _ _ => F64.zero) Scenario.akde_zero_bw
                  [F64.zero; F64.zero] eq_refl eq_refl)).
  exists 0%nat, F64.zero, Scenario.half. repeat split.
Defined.
